(** * Bookdown cross-reference index (SessionBookdownXRefs.cpp)

    A shallow embedding of the cross-reference index of the session:
    the renderer adapter [indexForDoc], the unsaved overlay
    [XRefUnsavedIndex], the merge [indexEntriesForProject], the transform
    [indexEntriesToXRefs], the monitor callback [fileChangeHandler] and the
    RPC handler [xrefIndexForFile].

    Stateful code is written in a state monad over [World]: the regular
    files on disk, the error log behind LOG_ERROR and the static
    [s_unsavedIndex].  Code that lives outside the translation unit (paths,
    the R runtime, pandoc, the source database) is the interface
    [Platform]. *)

From Stdlib Require Import ZArith Ascii String List.
From stdpp Require Import gmap strings list fin_maps.

Local Open Scope Z_scope.
Local Open Scope string_scope.
Local Open Scope list_scope.

(** ** std::string *)

Module str.

(** [s.find_first_of(c)]; [None] is [std::string::npos]. *)
Fixpoint find_first_of (c : ascii) (s : string) : option nat :=
  match s with
  | EmptyString => None
  | String a s' =>
      if Ascii.eqb a c then Some O else S <$> find_first_of c s'
  end.

(** [s.substr(0, n)]. *)
Fixpoint prefix (n : nat) (s : string) : string :=
  match n, s with
  | S n', String a s' => String a (prefix n' s')
  | _, _ => EmptyString
  end.

(** [s.substr(n)], for [n <= s.size()]. *)
Fixpoint suffix (n : nat) (s : string) : string :=
  match n, s with
  | S n', String _ s' => suffix n' s'
  | _, _ => s
  end.

(** [boost::algorithm::split(out, s, pred)] with the default
    [token_compress_off]: one token between any two separators, so the
    result is never empty and has one more token than separators. *)
Fixpoint split (isSep : ascii -> bool) (s : string) : list string :=
  match s with
  | EmptyString => [EmptyString]
  | String a s' =>
      if isSep a then EmptyString :: split isSep s'
      else match split isSep s' with
           | tok :: toks => String a tok :: toks
           | [] => [String a EmptyString]
           end
  end.

Definition newline : ascii := ascii_of_nat 10.

(** [boost::algorithm::is_any_of("\n")]. *)
Definition is_newline (a : ascii) : bool := Ascii.eqb a newline.

Fixpoint has_newline (s : string) : bool :=
  match s with
  | EmptyString => false
  | String a s' => is_newline a || has_newline s'
  end.

End str.

(** ** core::Error *)

Inductive Error :=
| Success
| Failure (code : Z) (message : string).

Definition isError (e : Error) : bool :=
  match e with Success => false | Failure _ _ => true end.

(** [boost::system::errc::state_not_recoverable] (ENOTRECOVERABLE). *)
Definition state_not_recoverable : Z := 131.
Definition no_such_file_or_directory : Z := 2.
Definition invalid_argument : Z := 22.

Definition systemError (code : Z) (message : string) : Error :=
  Failure code message.

Definition EXIT_SUCCESS : Z := 0.

(** ** json values *)

Module json.

#[local] Set Warnings "-register-all".

Inductive Value :=
| Null
| Str (s : string)
| Arr (a : list Value)
| Obj (o : gmap string Value).

Abbreviation Object := (gmap string Value).
Abbreviation Array := (list Value).

End json.

(** ** Data of the translation unit *)

Abbreviation FilePath := string (only parsing).

Record FileInfo := mkFileInfo { absolutePath : string }.

Record XRefFileIndex := mkXRefFileIndex {
  index_file : string;
  entries : list string
}.

Record XRefIndexEntry := mkXRefIndexEntry {
  file : string;
  entry : string
}.

Record ProcessResult := mkProcessResult {
  exitStatus : Z;
  stdOut : string;
  stdErr : string
}.

Record SourceDocument := mkSourceDocument {
  doc_path : string;
  doc_contents : string;
  doc_dirty : bool
}.

(** core::system::FileChangeEvent::Type; [NoChange] is its [None]. *)
Inductive FileChangeType := NoChange | FileAdded | FileRemoved | FileModified.

Record FileChangeEvent := mkFileChangeEvent {
  type : FileChangeType;
  fileInfo : FileInfo
}.

Record JsonRpcRequest := mkRequest { params : json.Array }.
Record JsonRpcResponse := mkResponse { result : option json.Value }.

(** ** The world the session runs in *)

Record File := mkFile {
  contents : string;
  lastWriteTime : Z
}.

Record World := mkWorld {
  files : gmap string File;          (* regular files, by absolute path *)
  clock : Z;                          (* stamp of the next write *)
  errorLog : list Error;              (* what LOG_ERROR has recorded *)
  unsavedFiles_ : gmap string XRefFileIndex   (* s_unsavedIndex *)
}.

Definition M (A : Type) : Type := World -> A * World.

Definition ret {A} (a : A) : M A := fun w => (a, w).

Definition bind {A B} (c : M A) (k : A -> M B) : M B :=
  fun w => let (a, w') := c w in k a w'.

Notation "x <~ c ;; k" := (bind c (fun x => k))
  (at level 100, c at next level, right associativity).
Notation "c ;;; k" := (bind c (fun _ => k))
  (at level 100, right associativity).

Definition gets {A} (f : World -> A) : M A := fun w => (f w, w).

Definition LOG_ERROR (e : Error) : M unit :=
  fun w => (tt, mkWorld (files w) (clock w) (errorLog w ++ [e]) (unsavedFiles_ w)).

Definition set_files (fs : gmap string File) : M unit :=
  fun w => (tt, mkWorld fs (clock w) (errorLog w) (unsavedFiles_ w)).

Definition set_unsaved (u : gmap string XRefFileIndex) : M unit :=
  fun w => (tt, mkWorld (files w) (clock w) (errorLog w) u).

(** [if (error) LOG_ERROR(error);] *)
Definition logIfError (e : Error) : M unit :=
  if isError e then LOG_ERROR e else ret tt.

(** A range-for loop with a loop-carried value. *)
Fixpoint for_each {A S} (l : list A) (body : A -> S -> M S) (acc : S) : M S :=
  match l with
  | [] => ret acc
  | x :: l' => acc' <~ body x acc ;; for_each l' body acc'
  end.

(** ** Files (shared_core/FilePath.hpp, core/FileSerializer.hpp) *)

Module fs.

(** [FilePath::exists()] *)
Definition exists_ (p : FilePath) : M bool :=
  gets (fun w => bool_decide (is_Some (files w !! p))).

(** [FilePath::getLastWriteTime()]; 0 when the file is not there. *)
Definition getLastWriteTime (p : FilePath) : M Z :=
  gets (fun w => match files w !! p with
                 | Some f => lastWriteTime f
                 | None => 0
                 end).

(** [FilePath::ensureDirectory()].  [World] tracks regular files only:
    creating a directory leaves every regular file as it is. *)
Definition ensureDirectory (p : FilePath) : M Error := ret Success.

(** [FilePath::removeIfExists()] *)
Definition removeIfExists (p : FilePath) : M Error :=
  fs <~ gets files ;;
  set_files (delete p fs) ;;;
  ret Success.

(** [core::readStringFromFile(filePath, &contents)] *)
Definition readStringFromFile (p : FilePath) : M (Error * string) :=
  fs <~ gets files ;;
  match fs !! p with
  | Some f => ret (Success, contents f)
  | None => ret (systemError no_such_file_or_directory p, EmptyString)
  end.

(** What [std::getline] in a loop yields: the text before each newline,
    and a last unterminated line when it is not empty. *)
Fixpoint getlines (s : string) : list string :=
  match s with
  | EmptyString => []
  | String a s' =>
      if str.is_newline a then EmptyString :: getlines s'
      else match getlines s' with
           | l :: ls => String a l :: ls
           | [] => [String a EmptyString]
           end
  end.

(** One line per item, each ended by a newline. *)
Fixpoint putlines (v : list string) : string :=
  match v with
  | [] => EmptyString
  | e :: v' => e +:+ String str.newline (putlines v')
  end.

(** Modelled from the spec: [core::writeStringVectorToFile] is declared
    in core/FileSerializer.hpp, which is not among the source files.  The
    persisted format is plain newline-delimited Raw Index Entry text; the
    file is replaced wholesale and stamped with the current time. *)
Definition writeStringVectorToFile (p : FilePath) (v : list string) : M Error :=
  fs <~ gets files ;;
  now <~ gets clock ;;
  set_files (<[p := mkFile (putlines v) now]> fs) ;;;
  ret Success.

(** Modelled from the spec: [core::readStringVectorFromFile] is declared
    in core/FileSerializer.hpp, which is not among the source files.  The
    lines of the file are appended to [*pVector] in order, one Raw Index
    Entry per line. *)
Definition readStringVectorFromFile (p : FilePath) (pVector : list string)
  : M (Error * list string) :=
  fs <~ gets files ;;
  match fs !! p with
  | Some f => ret (Success, pVector ++ getlines (contents f))
  | None => ret (systemError no_such_file_or_directory p, pVector)
  end.

End fs.

(** ** boost::regex, as far as the text-reference pattern needs it

    Perl syntax with Boost's defaults: [.] matches every character, [^]
    and [$] also match after and before a line separator, repetition is
    greedy and the leftmost match that backtracking finds first wins. *)

Module regex.

Inductive re :=
| Bol                              (* ^ *)
| Eol                              (* $ *)
| Chr (c : ascii)                  (* a literal character *)
| Star (cls : ascii -> bool)       (* cls* *)
| Plus (cls : ascii -> bool)       (* cls+ *)
| Cat (r1 r2 : re)
| Grp (n : nat) (r : re).          (* the n-th marked sub-expression *)

Definition any (a : ascii) : bool := true.

(** [\s]: the characters for which [std::isspace] holds. *)
Definition space (a : ascii) : bool :=
  let n := nat_of_ascii a in
  (n =? 32)%nat || ((9 <=? n)%nat && (n <=? 13)%nat).

(** Line separators of the matcher for [char]. *)
Definition is_separator (a : ascii) : bool :=
  let n := nat_of_ascii a in
  (n =? 10)%nat || (n =? 13)%nat || (n =? 12)%nat.

Definition is_cr (a : ascii) : bool := (nat_of_ascii a =? 13)%nat.
Definition is_lf (a : ascii) : bool := (nat_of_ascii a =? 10)%nat.

(** [prev] is the character before the position, [s] the text from it. *)
Definition at_line_start (prev : option ascii) (s : string) : bool :=
  match prev with
  | None => true
  | Some t =>
      match s with
      | String a _ => is_separator t && negb (is_cr t && is_lf a)
      | EmptyString => is_separator t
      end
  end.

Definition at_line_end (prev : option ascii) (s : string) : bool :=
  match s with
  | EmptyString => true
  | String a _ =>
      is_separator a &&
      match prev with
      | Some t => negb (is_cr t && is_lf a)
      | None => true
      end
  end.

Abbreviation captures := (gmap nat string).

(** The rest of a match, from a position on. *)
Definition cont := option ascii -> nat -> string -> captures -> option captures.

(** Greedy repetition: take one more character first, give it back when
    the rest of the pattern fails. *)
Fixpoint greedy (cls : ascii -> bool) (prev : option ascii) (pos : nat)
    (s : string) (caps : captures) (k : cont) : option captures :=
  match s with
  | String a s' =>
      if cls a then
        match greedy cls (Some a) (S pos) s' caps k with
        | Some m => Some m
        | None => k prev pos s caps
        end
      else k prev pos s caps
  | EmptyString => k prev pos s caps
  end.

Fixpoint exec (r : re) (prev : option ascii) (pos : nat) (s : string)
    (caps : captures) (k : cont) : option captures :=
  match r with
  | Bol => if at_line_start prev s then k prev pos s caps else None
  | Eol => if at_line_end prev s then k prev pos s caps else None
  | Chr c =>
      match s with
      | String a s' => if Ascii.eqb a c then k (Some a) (S pos) s' caps else None
      | EmptyString => None
      end
  | Star cls => greedy cls prev pos s caps k
  | Plus cls =>
      match s with
      | String a s' => if cls a then greedy cls (Some a) (S pos) s' caps k else None
      | EmptyString => None
      end
  | Cat r1 r2 =>
      exec r1 prev pos s caps (fun prev' pos' s' caps' => exec r2 prev' pos' s' caps' k)
  | Grp n r1 =>
      exec r1 prev pos s caps
        (fun prev' pos' s' caps' =>
           k prev' pos' s' (<[n := str.prefix (pos' - pos) s]> caps'))
  end.

Definition accept : cont := fun _ _ _ caps => Some caps.

(** Try every start position, leftmost first. *)
Fixpoint search_from (r : re) (prev : option ascii) (pos : nat) (s : string)
  : option captures :=
  match exec r prev pos s ∅ accept with
  | Some m => Some m
  | None =>
      match s with
      | String a s' => search_from r (Some a) (S pos) s'
      | EmptyString => None
      end
  end.

(** [boost::regex_search(s, matches, r)]; [None] when it returns false. *)
Definition regex_search (s : string) (r : re) : option captures :=
  search_from r None O s.

(** [matches[n]] as a string: empty for a group that took no part. *)
Definition sub (m : captures) (n : nat) : string := default EmptyString (m !! n).

End regex.

(** ** What the translation unit calls but does not define *)

Class Platform := {
  (* projects::projectContext().buildTargetPath() *)
  buildTargetPath : FilePath;
  (* module_context::scopedScratchPath() *)
  scopedScratchPath : FilePath;
  (* session::options().rResourcesPath() *)
  rResourcesPath : FilePath;
  (* FilePath methods that only compute on the path *)
  isWithin : FilePath -> FilePath -> bool;
  getRelativePath : FilePath -> FilePath -> string;
  getFilename : FilePath -> string;
  getExtensionLowerCase : FilePath -> string;
  completeChildPath : FilePath -> string -> FilePath;
  completePath : FilePath -> string -> FilePath;
  getParent : FilePath -> FilePath;
  utf8ToSystem : string -> string;
  (* module_context::resolveAliasedPath *)
  resolveAliasedPath : string -> FilePath;
  (* module_context::runPandoc(args, input, &result) *)
  runPandoc : list string -> string -> Error * ProcessResult;
  (* r::exec::RFunction(".rs.bookdown.SourceFiles", dir).call(&files) *)
  rs_bookdown_SourceFiles : string -> Error * list string;
  isBookdownWebsite : bool;
  isPackageInstalled : string -> bool;
  (* source_database::getId(path, &id), source_database::get(id, pDoc) *)
  source_database_getId : FilePath -> Error * string;
  source_database_get : string -> Error * SourceDocument
}.

(** Modelled from the spec: [json::readParams] is declared outside the
    source files.  The request carries one string, the document path; any
    other parameter list is a request-parameter error. *)
Definition readParams (ps : json.Array) : Error * string :=
  match ps with
  | json.Str s :: _ => (Success, s)
  | _ => (systemError invalid_argument "Invalid params", EmptyString)
  end.

Definition setResult (v : json.Value) (pResponse : JsonRpcResponse) : JsonRpcResponse :=
  mkResponse (Some v).

(** [module_context::toFilePath(fileInfo)] *)
Definition toFilePath (fileInfo : FileInfo) : FilePath := absolutePath fileInfo.

(** [std::map::operator[]]: a missing key is inserted with an empty value. *)
Definition map_index (m : gmap string string) (k : string) : string * gmap string string :=
  match m !! k with
  | Some v => (v, m)
  | None => (EmptyString, <[k := EmptyString]> m)
  end.

(** The pattern of [textRefRe], token by token:
    ^  ( \( . * \) )  \s +  ( . * )  $ *)
Definition textRefRe : regex.re :=
  regex.Cat regex.Bol
    (regex.Cat
       (regex.Grp 1 (regex.Cat (regex.Chr "(") (regex.Cat (regex.Star regex.any) (regex.Chr ")"))))
       (regex.Cat (regex.Plus regex.space)
          (regex.Cat (regex.Grp 2 (regex.Star regex.any)) regex.Eol))).

Section xrefs.

Context `{Platform}.

Definition isBookdownRmd (fileInfo : FileInfo) : bool :=
  let filePath := absolutePath fileInfo in
  let bookDir := buildTargetPath in
  isWithin filePath bookDir && String.eqb (getExtensionLowerCase filePath) ".rmd".

Definition bookdownSourceFiles : M (list string) :=
  let inputDir := utf8ToSystem buildTargetPath in
  let '(error, files) := rs_bookdown_SourceFiles inputDir in
  logIfError error ;;;
  ret files.

Definition bookRelativePath (rmdFile : FilePath) : string :=
  getRelativePath rmdFile buildTargetPath.

Definition xrefIndexDirectory : M FilePath :=
  let xrefsPath := completeChildPath scopedScratchPath "bookdown-xrefs" in
  error <~ fs.ensureDirectory xrefsPath ;;
  logIfError error ;;;
  ret xrefsPath.

(** [xrefIndexFilePath(const std::string& rmdRelativePath)] *)
Definition xrefIndexFilePath (rmdRelativePath : string) : M FilePath :=
  dir <~ xrefIndexDirectory ;;
  let indexFilePath := completeChildPath dir (rmdRelativePath +:+ ".xref") in
  error <~ fs.ensureDirectory (getParent indexFilePath) ;;
  logIfError error ;;;
  ret indexFilePath.

(** [xrefIndexFilePath(const FilePath& rmdFile)] *)
Definition xrefIndexFilePath_of (rmdFile : FilePath) : M FilePath :=
  let rmdRelativePath := bookRelativePath rmdFile in
  xrefIndexFilePath rmdRelativePath.

(** [indexForDoc(const std::string& file, const std::string& contents)] *)
Definition indexForDoc (file contents : string) : M XRefFileIndex :=
  let index := mkXRefFileIndex file [] in
  let args := ["--from"; "markdown-auto_identifiers"; "--to"] in
  let resPath := rResourcesPath in
  let xrefLuaPath := completePath resPath "xref.lua" in
  let xrefLua := utf8ToSystem xrefLuaPath in
  let args := args ++ [xrefLua] in
  let '(error, result) := runPandoc args contents in
  if isError error then
    LOG_ERROR error ;;;
    ret index
  else if negb (exitStatus result =? EXIT_SUCCESS)%Z then
    LOG_ERROR (systemError state_not_recoverable (stdErr result)) ;;;
    ret index
  else
    ret (mkXRefFileIndex file (str.split str.is_newline (stdOut result))).

(** [indexForDoc(const FilePath& filePath, const std::string& contents)] *)
Definition indexForDoc_in (filePath : FilePath) (contents : string) : M XRefFileIndex :=
  let file := bookRelativePath filePath in
  indexForDoc file contents.

(** [indexForDoc(const FilePath& filePath)] *)
Definition indexForDoc_of (filePath : FilePath) : M XRefFileIndex :=
  r <~ fs.readStringFromFile filePath ;;
  let '(error, contents) := r in
  logIfError error ;;;
  indexForDoc_in filePath contents.

Definition writeEntryId (id : string) (pEntryJson : json.Object) : json.Object :=
  match str.find_first_of ":" id with
  | Some colonPos =>
      <["id" := json.Str (str.suffix (S colonPos) id)]>
        (<["type" := json.Str (str.prefix colonPos id)]> pEntryJson)
  | None =>
      <["id" := json.Str id]> (<["type" := json.Str EmptyString]> pEntryJson)
  end.

(** *** class XRefUnsavedIndex, on the static [s_unsavedIndex] *)

Definition unsavedIndexes : M (gmap string XRefFileIndex) := gets unsavedFiles_.

Definition removeUnsaved (fileInfo : FileInfo) : M unit :=
  let filePath := toFilePath fileInfo in
  u <~ gets unsavedFiles_ ;;
  set_unsaved (delete (bookRelativePath filePath) u).

Definition updateUnsaved (fileInfo : FileInfo) (contents : string) (dirty : bool) : M unit :=
  (* always remove to start with *)
  removeUnsaved fileInfo ;;;
  (* add it back if it's dirty *)
  if dirty then
    let filePath := toFilePath fileInfo in
    idx <~ indexForDoc_in filePath contents ;;
    u <~ gets unsavedFiles_ ;;
    set_unsaved (<[bookRelativePath filePath := idx]> u)
  else ret tt.

Definition removeAllUnsaved : M unit := set_unsaved ∅.

(** *** Queries *)

Definition push_entries (sourceFile : string) (entries : list string)
    (indexEntries : list XRefIndexEntry) : list XRefIndexEntry :=
  fold_left (fun acc entry => acc ++ [mkXRefIndexEntry sourceFile entry])
    entries indexEntries.

Definition indexEntriesForProject : M (list XRefIndexEntry) :=
  (* find out what the docs in the book are *)
  sourceFiles <~ bookdownSourceFiles ;;
  for_each sourceFiles (fun sourceFile indexEntries =>
    (* prefer unsaved files *)
    unsaved <~ unsavedIndexes ;;
    entries <~ match unsaved !! sourceFile with
               | Some it => ret (entries it)
               | None =>
                   (* then check the disk based index *)
                   filePath <~ xrefIndexFilePath sourceFile ;;
                   there <~ fs.exists_ filePath ;;
                   if there : bool then
                     r <~ fs.readStringVectorFromFile filePath [] ;;
                     let '(error, entries) := r in
                     logIfError error ;;;
                     ret entries
                   else ret []
               end ;;
    ret (push_entries sourceFile entries indexEntries)) [].

Definition indexEntriesForFile (fileIndex : XRefFileIndex) : list XRefIndexEntry :=
  push_entries (index_file fileIndex) (entries fileIndex) [].

(** The first loop of [indexEntriesToXRefs]: text refs (as a map) and
    normal entries. *)
Definition splitTextRefs (entries : list XRefIndexEntry)
  : gmap string string * list XRefIndexEntry :=
  fold_left (fun '(textRefs, normalEntries) indexEntry =>
      match regex.regex_search (entry indexEntry) textRefRe with
      | Some matches =>
          (<[regex.sub matches 1 := regex.sub matches 2]> textRefs, normalEntries)
      | None => (textRefs, normalEntries ++ [indexEntry])
      end)
    entries (∅, []).

(** The body of the second loop, on [textRefs] and [xrefsJson]. *)
Definition pushXRef (st : gmap string string * json.Array) (indexEntry : XRefIndexEntry)
  : gmap string string * json.Array :=
  let '(textRefs, xrefsJson) := st in
  let xrefJson : json.Object := <["file" := json.Str (file indexEntry)]> ∅ in
  let entry := entry indexEntry in
  if (0 <? String.length entry)%nat then
    match str.find_first_of " " entry with
    | Some spacePos =>
        (* write the id *)
        let xrefJson := writeEntryId (str.prefix spacePos entry) xrefJson in
        (* get the title (substitute textref if we have one) *)
        let title := str.suffix (S spacePos) entry in
        let '(textrefTitle, textRefs) := map_index textRefs title in
        let title := if (0 <? String.length textrefTitle)%nat then textrefTitle else title in
        (* write the title *)
        let xrefJson := <["title" := json.Str title]> xrefJson in
        (textRefs, xrefsJson ++ [json.Obj xrefJson])
    | None =>
        let xrefJson := writeEntryId entry xrefJson in
        (textRefs, xrefsJson ++ [json.Obj xrefJson])
    end
  else (textRefs, xrefsJson).

Definition indexEntriesToXRefs (entries : list XRefIndexEntry) : json.Array :=
  let '(textRefs, normalEntries) := splitTextRefs entries in
  snd (fold_left pushXRef normalEntries (textRefs, [])).

(** *** The file monitor callback *)

Definition fileChangeHandler (event : FileChangeEvent) : M unit :=
  (* paths for the rmd file and it's corresponding index file *)
  let rmdFile := absolutePath (fileInfo event) in
  idxFile <~ xrefIndexFilePath_of (absolutePath (fileInfo event)) ;;
  fresh <~ match type event with
           | FileAdded =>
               there <~ fs.exists_ idxFile ;;
               if there : bool then
                 ti <~ fs.getLastWriteTime idxFile ;;
                 tr <~ fs.getLastWriteTime rmdFile ;;
                 ret (ti >? tr)%Z
               else ret false
           | _ => ret false
           end ;;
  if fresh : bool then ret tt
  else
    match type event with
    | FileAdded | FileModified =>
        (* if this is an add or an update then re-index *)
        there <~ fs.exists_ rmdFile ;;
        if there : bool then
          idx <~ indexForDoc_of rmdFile ;;
          error <~ fs.writeStringVectorToFile idxFile (entries idx) ;;
          logIfError error
        else ret tt
    | FileRemoved =>
        (* if this is a delete then remove the index *)
        error <~ fs.removeIfExists idxFile ;;
        logIfError error
    | NoChange => ret tt
    end.

(** *** Source database events *)

Definition onSourceDocUpdated (pDoc : SourceDocument) : M unit :=
  if String.eqb (doc_path pDoc) EmptyString then ret tt
  else
    let fileInfo := mkFileInfo (resolveAliasedPath (doc_path pDoc)) in
    if isBookdownRmd fileInfo
    then updateUnsaved fileInfo (doc_contents pDoc) (doc_dirty pDoc)
    else ret tt.

Definition onSourceDocRemoved (id path : string) : M unit :=
  if String.eqb path EmptyString then ret tt
  else
    let fileInfo := mkFileInfo (resolveAliasedPath path) in
    if isBookdownRmd fileInfo then removeUnsaved fileInfo else ret tt.

Definition onAllSourceDocsRemoved : M unit := removeAllUnsaved.

Definition isBookdownContext : bool :=
  isBookdownWebsite && isPackageInstalled "bookdown".

(** *** The RPC method xref_index_for_file *)

Definition xrefIndexForFile (request : JsonRpcRequest) (pResponse : JsonRpcResponse)
  : M (Error * JsonRpcResponse) :=
  (* read params *)
  let '(error, file) := readParams (params request) in
  if isError error then ret (error, pResponse)
  else
    (* resolve path *)
    let filePath := resolveAliasedPath file in
    if isBookdownContext && isWithin filePath buildTargetPath then
      (* send the whole project index *)
      entries <~ indexEntriesForProject ;;
      ret (Success, setResult (json.Arr (indexEntriesToXRefs entries)) pResponse)
    else
      (* otherwise just send an index for this file *)
      let '(_, id) := source_database_getId filePath in
      if negb (String.eqb id EmptyString) then
        let '(error, pDoc) := source_database_get id in
        if isError error then
          LOG_ERROR error ;;;
          ret (Success, setResult (json.Arr []) pResponse)
        else
          idx <~ indexForDoc (getFilename filePath) (doc_contents pDoc) ;;
          let entries := indexEntriesForFile idx in
          ret (Success, setResult (json.Arr (indexEntriesToXRefs entries)) pResponse)
      else
        ret (Success, setResult (json.Arr []) pResponse).

End xrefs.

(** ** A small concrete platform, to run the code on examples

    POSIX-style paths; the book lives in /book, the scratch directory is
    /scratch; the renderer is a stand-in that prints its input back, fails
    to start on the input "crash" and exits with status 1 on the input
    "bad". *)

Module Demo.

Definition is_slash (a : ascii) : bool := Ascii.eqb a "/".

Definition basename (p : string) : string :=
  List.last (str.split is_slash p) EmptyString.

Definition dirname (p : string) : string :=
  str.prefix (String.length p - String.length (basename p) - 1) p.

Definition within (p dir : string) : bool :=
  String.eqb p dir || String.prefix (dir +:+ "/") p.

Definition relative (p dir : string) : string :=
  if String.prefix (dir +:+ "/") p then str.suffix (S (String.length dir)) p else p.

Definition child (base name : string) : string := base +:+ "/" +:+ name.

Definition lower (a : ascii) : ascii :=
  let n := nat_of_ascii a in
  if ((65 <=? n) && (n <=? 90))%nat then ascii_of_nat (n + 32) else a.

Fixpoint lowercase (s : string) : string :=
  match s with
  | EmptyString => EmptyString
  | String a s' => String (lower a) (lowercase s')
  end.

Definition extension (p : string) : string :=
  match str.split (fun a => Ascii.eqb a ".") (basename p) with
  | [_] | [] => EmptyString
  | toks => lowercase ("." +:+ List.last toks EmptyString)
  end.

Definition pandoc (args : list string) (input : string) : Error * ProcessResult :=
  if String.eqb input "crash" then
    (Failure 2 "pandoc: not found", mkProcessResult 0 EmptyString EmptyString)
  else if String.eqb input "bad" then
    (Success, mkProcessResult 1 EmptyString "pandoc: could not parse")
  else (Success, mkProcessResult 0 input EmptyString).

Definition doc1 : SourceDocument :=
  mkSourceDocument "/home/u/notes/sub/doc.Rmd"
    (String.concat (String str.newline EmptyString)
       ["(ref:cap) A long caption"; "fig:plot (ref:cap)"; "intro Getting started"])
    true.

Definition getId (p : string) : Error * string :=
  if String.eqb p (doc_path doc1) then (Success, "D1")
  else (Failure 2 "no such document", EmptyString).

Definition get (id : string) : Error * SourceDocument :=
  if String.eqb id "D1" then (Success, doc1)
  else (Failure 2 "no such document", mkSourceDocument EmptyString EmptyString false).

#[global] Instance platform : Platform := {|
  buildTargetPath := "/book";
  scopedScratchPath := "/scratch";
  rResourcesPath := "/res";
  isWithin := within;
  getRelativePath := relative;
  getFilename := basename;
  getExtensionLowerCase := extension;
  completeChildPath := child;
  completePath := child;
  getParent := dirname;
  utf8ToSystem := fun s => s;
  resolveAliasedPath := fun s => s;
  runPandoc := pandoc;
  rs_bookdown_SourceFiles := fun _ => (Success, ["intro.Rmd"; "ch1.Rmd"]);
  isBookdownWebsite := true;
  isPackageInstalled := fun _ => true;
  source_database_getId := getId;
  source_database_get := get
|}.

Definition line (s : string) : string := s +:+ String str.newline EmptyString.

(** intro.Rmd is indexed on disk; ch1.Rmd is open with unsaved edits and
    has an older index on disk. *)
Definition world : World := {|
  files :=
    <["/scratch/bookdown-xrefs/intro.Rmd.xref" := mkFile (line "ch:intro Introduction") 20]>
    (<["/scratch/bookdown-xrefs/ch1.Rmd.xref" := mkFile (line "fig:one Old Plot") 20]>
    (<["/book/intro.Rmd" := mkFile "# Introduction {#ch:intro}" 10]>
    (<["/book/ch1.Rmd" := mkFile "fig:one Saved Plot" 10]> ∅)));
  clock := 30;
  errorLog := [];
  unsavedFiles_ := {[ "ch1.Rmd" := mkXRefFileIndex "ch1.Rmd" ["fig:one Plot One"] ]}
|}.

End Demo.

(** ** Vocabulary of the specification *)

(** The world after one more LOG_ERROR and nothing else. *)
Definition logged (e : Error) (w : World) : World :=
  mkWorld (files w) (clock w) (errorLog w ++ [e]) (unsavedFiles_ w).

(** Two worlds with the same disk, clock and overlay. *)
Definition same_store (w w' : World) : Prop :=
  files w' = files w /\ clock w' = clock w /\ unsavedFiles_ w' = unsavedFiles_ w.

(** A Raw Index Entry is one line of renderer output. *)
Definition one_line (e : string) : Prop := str.has_newline e = false.

(** Blank after trimming: nothing but white space. *)
Fixpoint blank (s : string) : bool :=
  match s with
  | EmptyString => true
  | String a s' => regex.space a && blank s'
  end.

(** The key and the title of an indirect entry. *)
Definition textRefOf (e : XRefIndexEntry) : option (string * string) :=
  match regex.regex_search (entry e) textRefRe with
  | Some matches => Some (regex.sub matches 1, regex.sub matches 2)
  | None => None
  end.

Definition isTextRef (e : XRefIndexEntry) : bool :=
  match regex.regex_search (entry e) textRefRe with Some _ => true | None => false end.

Definition isNormal (e : XRefIndexEntry) : bool := negb (isTextRef e).

(** The key-to-title map the specification speaks of: a later indirect
    entry replaces an earlier one with the same key. *)
Definition collectedTextRefs (es : list XRefIndexEntry) : gmap string string :=
  list_to_map (reverse (omap textRefOf es)).

(** The title a Record shows for the literal [title] of its entry. *)
Definition resolvedTitle (textRefs : gmap string string) (title : string) : string :=
  match textRefs !! title with
  | Some v => if String.eqb v EmptyString then title else v
  | None => title
  end.

(** Titles are looked up with [operator[]], which only ever adds keys
    with an empty value: such keys resolve like absent ones. *)
Definition same_titles (m m' : gmap string string) : Prop :=
  forall k, default EmptyString (m' !! k) = default EmptyString (m !! k).

(** A Structured Record with all four members, and one without title. *)
Definition xref (file type id title : string) : json.Value :=
  json.Obj (list_to_map [("file", json.Str file); ("type", json.Str type);
                         ("id", json.Str id); ("title", json.Str title)]).

Definition xrefNoTitle (file type id : string) : json.Value :=
  json.Obj (list_to_map [("file", json.Str file); ("type", json.Str type);
                         ("id", json.Str id)]).

(** An entry that is normal and has text. *)
Definition hasRecord (e : XRefIndexEntry) : bool :=
  isNormal e && negb (String.eqb (entry e) EmptyString).

Section vocabulary.

Context `{Platform}.

(** The arguments every renderer run gets. *)
Definition pandocArgs : list string :=
  ["--from"; "markdown-auto_identifiers"; "--to";
   utf8ToSystem (completePath rResourcesPath "xref.lua")].

(** Where the persisted File Index of a document lives. *)
Definition xrefIndexPath (rmdRelativePath : string) : FilePath :=
  completeChildPath (completeChildPath scopedScratchPath "bookdown-xrefs")
    (rmdRelativePath +:+ ".xref").

(** What the Index Store holds for a document: the entries read from its
    persisted file, none when there is no such file. *)
Definition storeEntries (w : World) (sourceFile : string) : list string :=
  if bool_decide (is_Some (files w !! xrefIndexPath sourceFile))
  then snd (fst (fs.readStringVectorFromFile (xrefIndexPath sourceFile) [] w))
  else [].

(** Overlay first, Index Store otherwise. *)
Definition overlayOrStore (w : World) (sourceFile : string) : list string :=
  match unsavedFiles_ w !! sourceFile with
  | Some idx => entries idx
  | None => storeEntries w sourceFile
  end.

(** The documents the project enumerates. *)
Definition projectDocuments : list string :=
  snd (rs_bookdown_SourceFiles (utf8ToSystem buildTargetPath)).

(** The handler has re-indexed [rmdFile]: its persisted File Index now
    holds what the renderer gives for the document on disk, and no other
    file has changed. *)
Definition reindexed (rmdFile : FilePath) (w w' : World) : Prop :=
  files w' =
    <[xrefIndexPath (bookRelativePath rmdFile) :=
        mkFile (fs.putlines (entries (fst (indexForDoc_of rmdFile w)))) (clock w)]>
      (files w).

(** The Record of one normal entry, if it has one. *)
Definition recordOf (textRefs : gmap string string) (e : XRefIndexEntry)
  : option json.Value :=
  let xrefJson : json.Object := {[ "file" := json.Str (file e) ]} in
  if String.eqb (entry e) EmptyString then None
  else match str.find_first_of " " (entry e) with
       | Some spacePos =>
           Some (json.Obj
                   (<["title" := json.Str (resolvedTitle textRefs
                                             (str.suffix (S spacePos) (entry e)))]>
                      (writeEntryId (str.prefix spacePos (entry e)) xrefJson)))
       | None => Some (json.Obj (writeEntryId (entry e) xrefJson))
       end.

(** The id-token [token] is split on its first colon into the type and
    id members of [o]. *)
Definition idSplit (token : string) (o : json.Object) : Prop :=
  (exists ty id,
      token = ty +:+ String ":" id /\ str.find_first_of ":" ty = None /\
      o !! "type" = Some (json.Str ty) /\ o !! "id" = Some (json.Str id))
  \/ (str.find_first_of ":" token = None /\
      o !! "type" = Some (json.Str EmptyString) /\ o !! "id" = Some (json.Str token)).

End vocabulary.

(** ** Further vocabulary *)

(** Every File Index of the overlay sits under the path it names. *)
Definition overlay_keyed (w : World) : Prop :=
  forall k idx, unsavedFiles_ w !! k = Some idx -> index_file idx = k.

(** The log of [w'] is the log of [w] with at most one more line. *)
Definition logged_at_most_once (w w' : World) : Prop :=
  errorLog w' = errorLog w \/ exists e, errorLog w' = errorLog w ++ [e].

(** [c] is the first character of [s]. *)
Definition starts_with (c : ascii) (s : string) : Prop :=
  exists s', s = String c s'.

(** [c] is the last character of [s]. *)
Definition ends_with (c : ascii) (s : string) : Prop :=
  exists s', s = s' +:+ String c EmptyString.

Fixpoint all_chars (cls : ascii -> bool) (s : string) : bool :=
  match s with
  | EmptyString => true
  | String a s' => cls a && all_chars cls s'
  end.

(** No line separator of the matcher occurs in [s]. *)
Definition single_line (s : string) : Prop :=
  all_chars (fun a => negb (regex.is_separator a)) s = true.

(** intro.Rmd saved again at the very time its index was written. *)
Definition saved_again : World :=
  mkWorld (<["/book/intro.Rmd" := mkFile "# Intro {#ch:intro}" 20]> (files Demo.world))
    (clock Demo.world) (errorLog Demo.world) (unsavedFiles_ Demo.world).

(** How many newline characters [s] holds. *)
Fixpoint count_newlines (s : string) : nat :=
  match s with
  | EmptyString => O
  | String a s' => (if str.is_newline a then 1 else 0) + count_newlines s'
  end.

(** [s] without its leading characters of the class [cls]. *)
Fixpoint drop_while (cls : ascii -> bool) (s : string) : string :=
  match s with
  | EmptyString => EmptyString
  | String a s' => if cls a then drop_while cls s' else s
  end.

(** An indirect entry written out: a parenthesised key, one white space
    character, and the rest. *)
Definition textRefText (mid : string) (a : ascii) (rest : string) : string :=
  String "(" (mid +:+ String ")" (String a rest)).

(** ** Publishing (SessionRSConnect.cpp)

    The deployment runs in an asynchronous R process; here are the parts
    of the translation unit that compute on their own: the joining of file
    names, the callbacks on the output and the end of the process, and the
    RPC method that lists deployments. *)

(** What SessionRSConnect.cpp calls but does not define. *)
Class RSConnectRuntime := {
  (* string_utils::singleQuotedStrEscape *)
  singleQuotedStrEscape : string -> string;
  (* boost::regex_search with "Error: HTTP (\d{3})\s+\w+\s+(\S+)":
     the status, converted by safe_convert::stringTo, and the path *)
  httpFailure : string -> option (Z * string);
  (* module_context::kCompileOutputNormal, kCompileOutputError *)
  kCompileOutputNormal : Z;
  kCompileOutputError : Z;
  (* module_context::previousRpubsUploadId *)
  previousRpubsUploadId : FilePath -> string;
  (* values of the R runtime *)
  SEXP : Type;
  (* r::exec::RFunction(".rs.getRSConnectDeployments", path, id).call(&sexp) *)
  rs_getRSConnectDeployments : string -> string -> Error * SEXP;
  (* r::json::jsonValueFromObject(sexp, &result) *)
  jsonValueFromObject : SEXP -> Error * json.Value
}.

Module rsconnect.

Definition kFinishedMarker : string := "Deployment completed: ".

(** [v.get_str()]; [None] when the value is no string and the call throws. *)
Definition get_str (v : json.Value) : option string :=
  match v with json.Str s => Some s | _ => None end.

(** [s.substr(pos, n)], for [pos <= s.size()]. *)
Definition substr (s : string) (pos n : nat) : string :=
  str.prefix n (str.suffix pos s).

(** [boost::algorithm::is_any_of("\n\r")] *)
Definition is_newline_or_return (a : ascii) : bool :=
  let n := nat_of_ascii a in (n =? 10)%nat || (n =? 13)%nat.

(** The client events of this translation unit, with their data. *)
Inductive ClientEvent :=
| RmdRSConnectDeploymentFailed (http_status : Z) (path : string)
| RmdRSConnectDeploymentOutput (type : Z) (output : string)
| RmdRSConnectDeploymentCompleted (url : string).

(** The members of class RSConnectPublish. *)
Record RSConnectPublish := mkRSConnectPublish {
  deployedUrl_ : string;
  sourceFile_ : string;
  manifestPath_ : FilePath
}.

Section publish.

Context `{Platform} `{RSConnectRuntime}.

(** The loop of [quotedFilesFromArray], [n] turns from index [i] on;
    [i < array.size() - 1] is only reached when the array is not empty. *)
Fixpoint quotedFiles_loop (array : json.Array) (quoted : bool) (n i : nat)
    (joined : string) : option string :=
  match n with
  | O => Some joined
  | S n' =>
      match array !! i with
      | None => Some joined
      | Some v =>
          match get_str v with
          | None => None
          | Some name =>
              (* convert filenames to system encoding and escape quotes *)
              let filename := singleQuotedStrEscape (utf8ToSystem name) in
              (* join into a single string *)
              let joined :=
                joined +:+ ((if quoted then "'" else EmptyString) +:+ filename
                            +:+ (if quoted then "'" else EmptyString)) in
              let joined :=
                if (i <? length array - 1)%nat
                then joined +:+ (if quoted then ", " else "|")
                else joined in
              quotedFiles_loop array quoted n' (S i) joined
          end
      end
  end.

Definition quotedFilesFromArray (array : json.Array) (quoted : bool) : option string :=
  quotedFiles_loop array quoted (length array) 0 EmptyString.

(** [RSConnectPublish::onOutput], on the object and the queue of client
    events. *)
Definition onOutput (type : Z) (output : string)
    (self : RSConnectPublish) (queue : list ClientEvent)
  : RSConnectPublish * list ClientEvent :=
  (* check for HTTP errors *)
  let queue :=
    match httpFailure output with
    | Some (http_status, path) => queue ++ [RmdRSConnectDeploymentFailed http_status path]
    | None => queue
    end in
  (* look on each line of emitted output to see whether it contains the
     finished marker *)
  let lines := str.split is_newline_or_return output in
  let ncharMarker := String.length kFinishedMarker in
  let self :=
    fold_left
      (fun self line =>
         if String.eqb (substr line 0 ncharMarker) kFinishedMarker
         then mkRSConnectPublish
                (substr line ncharMarker (String.length line - ncharMarker))
                (sourceFile_ self) (manifestPath_ self)
         else self)
      lines self in
  (* emit the output to the client for display *)
  (self, queue ++ [RmdRSConnectDeploymentOutput type output]).

Definition onStderr (output : string) := onOutput kCompileOutputNormal output.

Definition onStdout (output : string) := onOutput kCompileOutputError output.




End publish.

(** A line of the output that announces the deployed URL. *)
Definition announces (line url : string) : Prop := line = kFinishedMarker +:+ url.

End rsconnect.

(** A runtime for examples: quotes are escaped with a backslash, no
    output is an HTTP failure, R values are JSON values. *)
Module DemoRSConnect.

Fixpoint escape (s : string) : string :=
  match s with
  | EmptyString => EmptyString
  | String a s' =>
      if Ascii.eqb a "'" then String "\" (String "'" (escape s'))
      else String a (escape s')
  end.

#[global] Instance runtime : RSConnectRuntime := {|
  singleQuotedStrEscape := escape;
  httpFailure := fun _ => None;
  kCompileOutputNormal := 0;
  kCompileOutputError := 1;
  previousRpubsUploadId := fun _ => EmptyString;
  SEXP := json.Value;
  rs_getRSConnectDeployments := fun _ _ => (Success, json.Obj ∅);
  jsonValueFromObject := fun v => (Success, v)
|}.

End DemoRSConnect.

(** ** Basic facts *)

Ltac run := unfold bind, ret, gets, logIfError, LOG_ERROR, set_files, set_unsaved; simpl.

Lemma getlines_line (e rest : string) :
  one_line e ->
  fs.getlines (e +:+ String str.newline rest) = e :: fs.getlines rest.
Proof.
  unfold one_line. induction e as [|a e IH]; simpl; intros Hnl.
  - reflexivity.
  - apply orb_false_iff in Hnl as [Ha He].
    rewrite Ha, (IH He). reflexivity.
Qed.

Lemma getlines_putlines (v : list string) :
  Forall one_line v -> fs.getlines (fs.putlines v) = v.
Proof.
  induction 1 as [|e v He _ IH]; simpl.
  - reflexivity.
  - rewrite (getlines_line e _ He), IH. reflexivity.
Qed.

Lemma split_one_line (s : string) :
  Forall one_line (str.split str.is_newline s).
Proof.
  induction s as [|a s IH]; simpl.
  - repeat constructor.
  - destruct (str.is_newline a) eqn:Ha.
    + constructor; [reflexivity | exact IH].
    + destruct (str.split str.is_newline s) as [|tok toks].
      * repeat constructor. unfold one_line. simpl. rewrite Ha. reflexivity.
      * inversion IH as [|? ? Htok Htoks]; subst. constructor; [|exact Htoks].
        unfold one_line in *. simpl. rewrite Ha, Htok. reflexivity.
Qed.

Section adapter.

Context `{Platform}.

(** The adapter only ever adds to the log. *)
Lemma indexForDoc_same_store file contents w :
  same_store w (snd (indexForDoc file contents w)).
Proof.
  unfold indexForDoc, same_store.
  destruct (runPandoc _ contents) as [error result].
  destruct (isError error); [run; auto|].
  destruct (negb _); run; auto.
Qed.

(** Its answer does not depend on the world. *)
Lemma indexForDoc_fst file contents w w' :
  fst (indexForDoc file contents w) = fst (indexForDoc file contents w').
Proof.
  unfold indexForDoc.
  destruct (runPandoc _ contents) as [error result].
  destruct (isError error); [reflexivity|].
  destruct (negb _); reflexivity.
Qed.

Lemma indexForDoc_file file contents w :
  index_file (fst (indexForDoc file contents w)) = file.
Proof.
  unfold indexForDoc.
  destruct (runPandoc _ contents) as [error result].
  destruct (isError error); [reflexivity|].
  destruct (negb _); reflexivity.
Qed.

Lemma indexForDoc_one_line file contents w :
  Forall one_line (entries (fst (indexForDoc file contents w))).
Proof.
  unfold indexForDoc.
  destruct (runPandoc _ contents) as [error result].
  destruct (isError error); [constructor|].
  destruct (negb _); [constructor|]. apply split_one_line.
Qed.

(** C5. Whatever the document content: when the renderer cannot be run,
    or runs and exits with a non-zero status, [indexForDoc] returns the
    File Index of the document with no entries.  It returns an index and
    no [Error]; the failure goes to the log, as its one new line, and the
    disk, the clock and the overlay stay as they were. *)
Theorem indexForDoc_failure_gives_empty_index (file contents : string) (w : World) :
  isError (fst (runPandoc pandocArgs contents)) = true \/
  exitStatus (snd (runPandoc pandocArgs contents)) <> EXIT_SUCCESS ->
  exists e, isError e = true /\
    indexForDoc file contents w = (mkXRefFileIndex file [], logged e w).
Proof.
  unfold indexForDoc, pandocArgs. simpl.
  destruct (runPandoc _ contents) as [error result]. simpl.
  intros Hfail. destruct (isError error) eqn:He.
  - exists error. split; [exact He | reflexivity].
  - destruct Hfail as [Hfail | Hfail]; [discriminate|].
    destruct (Z.eqb_spec (exitStatus result) EXIT_SUCCESS) as [Heq | Hne]; [contradiction|].
    simpl. eexists. split; [|reflexivity]. reflexivity.
Qed.

(** C8. Writing the entries of a File Index, as the adapter produces
    it, to its persisted file and reading that file back succeeds and
    yields the same entries in the same order, line for line. *)
Theorem persisted_index_round_trip (file contents : string) (w0 : World)
    (p : FilePath) (w : World) :
  let idx := fst (indexForDoc file contents w0) in
  fst (fs.readStringVectorFromFile p []
         (snd (fs.writeStringVectorToFile p (entries idx) w)))
  = (Success, entries idx).
Proof.
  intros idx. unfold fs.readStringVectorFromFile, fs.writeStringVectorToFile. run.
  rewrite lookup_insert_eq. simpl.
  rewrite getlines_putlines; [reflexivity|].
  apply indexForDoc_one_line.
Qed.

End adapter.

Lemma indexForDoc_failure_gives_empty_index_witness :
  isError (fst (runPandoc pandocArgs "crash")) = true /\
  exists e, isError e = true /\
    indexForDoc "ch1.Rmd" "crash" Demo.world
    = (mkXRefFileIndex "ch1.Rmd" [], logged e Demo.world).
Proof.
  split; [reflexivity|].
  apply (indexForDoc_failure_gives_empty_index "ch1.Rmd" "crash" Demo.world).
  left. reflexivity.
Defined.

Section overlay.

Context `{Platform}.

Lemma removeUnsaved_unsaved fileInfo w :
  unsavedFiles_ (snd (removeUnsaved fileInfo w))
  = delete (bookRelativePath (toFilePath fileInfo)) (unsavedFiles_ w).
Proof. reflexivity. Qed.

Lemma updateUnsaved_dirty_unsaved fileInfo contents w :
  unsavedFiles_ (snd (updateUnsaved fileInfo contents true w))
  = <[bookRelativePath (toFilePath fileInfo) :=
        fst (indexForDoc (bookRelativePath (toFilePath fileInfo)) contents w)]>
      (unsavedFiles_ w).
Proof.
  unfold updateUnsaved, removeUnsaved, indexForDoc_in. run.
  set (w1 := mkWorld _ _ _ _).
  pose proof (indexForDoc_same_store
                (bookRelativePath (toFilePath fileInfo)) contents w1) as (_ & _ & Hu).
  rewrite (indexForDoc_fst _ _ w w1).
  destruct (indexForDoc _ contents w1) as [idx w2]. simpl in *.
  rewrite Hu. unfold w1. simpl. apply insert_delete_eq.
Qed.

(** C9. For every document, content and prior overlay, with [path] the
    project-relative path of the document: an update with dirty = false
    leaves the same world as a remove; an update with dirty = true puts
    the freshly computed File Index at [path], whatever was there before;
    a remove at a path the overlay does not hold changes nothing; and in
    each case every other path keeps its entry. *)
Theorem overlay_update_and_remove (fileInfo : FileInfo) (contents : string) (w : World) :
  let path := bookRelativePath (toFilePath fileInfo) in
  updateUnsaved fileInfo contents false w = removeUnsaved fileInfo w
  /\ unsavedFiles_ (snd (updateUnsaved fileInfo contents true w)) !! path
     = Some (fst (indexForDoc path contents w))
  /\ (unsavedFiles_ w !! path = None -> removeUnsaved fileInfo w = (tt, w))
  /\ (forall k, k <> path ->
        unsavedFiles_ (snd (removeUnsaved fileInfo w)) !! k = unsavedFiles_ w !! k
        /\ unsavedFiles_ (snd (updateUnsaved fileInfo contents false w)) !! k
           = unsavedFiles_ w !! k
        /\ unsavedFiles_ (snd (updateUnsaved fileInfo contents true w)) !! k
           = unsavedFiles_ w !! k).
Proof.
  intros path.
  assert (Hclean : updateUnsaved fileInfo contents false w = removeUnsaved fileInfo w).
  { unfold updateUnsaved, removeUnsaved. run. reflexivity. }
  split; [exact Hclean|]. split; [|split].
  - rewrite updateUnsaved_dirty_unsaved. apply lookup_insert_eq.
  - intros Hnone. unfold removeUnsaved. run. fold path.
    rewrite (delete_id _ _ Hnone). destruct w; reflexivity.
  - intros k Hk. rewrite Hclean, updateUnsaved_dirty_unsaved, removeUnsaved_unsaved.
    fold path. rewrite lookup_delete_ne, lookup_insert_ne by congruence. auto.
Qed.

End overlay.

Lemma overlay_update_and_remove_witness :
  let fileInfo := mkFileInfo "/book/ch1.Rmd" in
  unsavedFiles_ Demo.world !! "intro.Rmd" = None /\
  "intro.Rmd" <> "ch1.Rmd" /\
  removeUnsaved (mkFileInfo "/book/intro.Rmd") Demo.world = (tt, Demo.world) /\
  unsavedFiles_ (snd (updateUnsaved fileInfo "fig:two Plot Two" true Demo.world)) !! "intro.Rmd"
  = unsavedFiles_ Demo.world !! "intro.Rmd".
Proof.
  intros fileInfo.
  assert (Hnone : unsavedFiles_ Demo.world !! "intro.Rmd" = None) by (vm_compute; reflexivity).
  assert (Hne : "intro.Rmd" <> "ch1.Rmd") by (vm_compute; discriminate).
  split; [exact Hnone|]. split; [exact Hne|]. split.
  - exact (proj1 (proj2 (proj2
      (overlay_update_and_remove (mkFileInfo "/book/intro.Rmd") "" Demo.world))) Hnone).
  - exact (proj2 (proj2 (proj2 (proj2 (proj2
      (overlay_update_and_remove fileInfo "fig:two Plot Two" Demo.world))) "intro.Rmd" Hne))).
Defined.

Section merge.

Context `{Platform}.

Lemma xrefIndexFilePath_run rmdRelativePath w :
  xrefIndexFilePath rmdRelativePath w = (xrefIndexPath rmdRelativePath, w).
Proof. reflexivity. Qed.

Lemma push_entries_app sourceFile es acc :
  push_entries sourceFile es acc = acc ++ map (mkXRefIndexEntry sourceFile) es.
Proof.
  unfold push_entries. revert acc.
  induction es as [|e es IH]; intros acc; simpl.
  - rewrite app_nil_r. reflexivity.
  - rewrite IH, <- app_assoc. reflexivity.
Qed.

Lemma bookdownSourceFiles_run w :
  fst (bookdownSourceFiles w) = projectDocuments /\
  same_store w (snd (bookdownSourceFiles w)).
Proof.
  unfold bookdownSourceFiles, projectDocuments, same_store.
  destruct (rs_bookdown_SourceFiles _) as [error docs].
  destruct error; run; auto.
Qed.

Lemma overlayOrStore_same_store w w' d :
  same_store w w' -> overlayOrStore w' d = overlayOrStore w d.
Proof.
  intros (Hf & _ & Hu).
  unfold overlayOrStore, storeEntries, fs.readStringVectorFromFile. run.
  rewrite Hf, Hu.
  destruct (unsavedFiles_ w !! d); [reflexivity|].
  destruct (files w !! xrefIndexPath d); reflexivity.
Qed.

(** One turn of the loop over the source files. *)
Lemma project_loop_run (docs : list string) (acc : list XRefIndexEntry) (w : World) :
  for_each docs (fun sourceFile indexEntries =>
    unsaved <~ unsavedIndexes ;;
    entries <~ match unsaved !! sourceFile with
               | Some it => ret (entries it)
               | None =>
                   filePath <~ xrefIndexFilePath sourceFile ;;
                   there <~ fs.exists_ filePath ;;
                   if there : bool then
                     r <~ fs.readStringVectorFromFile filePath [] ;;
                     let '(error, entries) := r in
                     logIfError error ;;;
                     ret entries
                   else ret []
               end ;;
    ret (push_entries sourceFile entries indexEntries)) acc w
  = (acc ++ flat_map (fun d => map (mkXRefIndexEntry d) (overlayOrStore w d)) docs, w).
Proof.
  revert acc. induction docs as [|d docs IH]; intros acc.
  - simpl. unfold ret. rewrite app_nil_r. reflexivity.
  - cbn [for_each flat_map]. unfold bind at 1. unfold bind at 1.
    unfold unsavedIndexes at 1, gets at 1. unfold bind at 1.
    assert (Hbody :
      match unsavedFiles_ w !! d with
      | Some it => ret (entries it)
      | None =>
          filePath <~ xrefIndexFilePath d ;;
          there <~ fs.exists_ filePath ;;
          if there : bool then
            r <~ fs.readStringVectorFromFile filePath [] ;;
            let '(error, entries) := r in
            logIfError error ;;;
            ret entries
          else ret []
      end w = (overlayOrStore w d, w)).
    { unfold overlayOrStore, storeEntries.
      destruct (unsavedFiles_ w !! d) as [it|]; [reflexivity|].
      unfold bind at 1. rewrite xrefIndexFilePath_run.
      unfold bind at 1, fs.exists_ at 1, gets at 1.
      destruct (files w !! xrefIndexPath d) as [f|] eqn:Hf.
      - rewrite !bool_decide_eq_true_2 by eauto.
        unfold fs.readStringVectorFromFile. run. rewrite Hf. reflexivity.
      - rewrite !bool_decide_eq_false_2 by (intros [? ?]; discriminate). reflexivity. }
    rewrite Hbody. unfold ret at 1.
    rewrite IH, push_entries_app, <- app_assoc. reflexivity.
Qed.

(** C1. A project-scope query returns, document by document in the order
    of enumeration, each document paired with its entries, and these are:
    the entries of the overlay when the overlay holds a File Index for the
    document's relative path, whatever the persisted file holds; otherwise
    the entries read from the persisted index file of that path; and no
    entries when there is no such file. *)
Theorem project_query_overlay_then_store (w : World) :
  fst (indexEntriesForProject w)
  = flat_map (fun d => map (mkXRefIndexEntry d) (overlayOrStore w d)) projectDocuments
  /\ forall d,
       (forall idx, unsavedFiles_ w !! d = Some idx -> overlayOrStore w d = entries idx)
       /\ (unsavedFiles_ w !! d = None ->
           is_Some (files w !! xrefIndexPath d) ->
           overlayOrStore w d
           = snd (fst (fs.readStringVectorFromFile (xrefIndexPath d) [] w)))
       /\ (unsavedFiles_ w !! d = None ->
           files w !! xrefIndexPath d = None ->
           overlayOrStore w d = []).
Proof.
  split.
  - unfold indexEntriesForProject. unfold bind at 1.
    destruct (bookdownSourceFiles_run w) as [Hdocs Hsame].
    destruct (bookdownSourceFiles w) as [docs w1]. simpl in Hdocs, Hsame. subst docs.
    rewrite project_loop_run. simpl.
    apply flat_map_ext. intros d. rewrite (overlayOrStore_same_store w w1 d Hsame).
    reflexivity.
  - intros d. unfold overlayOrStore, storeEntries. repeat split.
    + intros idx ->. reflexivity.
    + intros -> Hsome. rewrite bool_decide_eq_true_2 by exact Hsome. reflexivity.
    + intros -> Hnone. rewrite bool_decide_eq_false_2; [reflexivity|].
      rewrite Hnone. intros [? ?]; discriminate.
Qed.

End merge.

Lemma project_query_overlay_then_store_witness :
  unsavedFiles_ Demo.world !! "ch1.Rmd"
    = Some (mkXRefFileIndex "ch1.Rmd" ["fig:one Plot One"]) /\
  overlayOrStore Demo.world "ch1.Rmd" = ["fig:one Plot One"] /\
  fst (indexEntriesForProject Demo.world)
  = [mkXRefIndexEntry "intro.Rmd" "ch:intro Introduction";
     mkXRefIndexEntry "ch1.Rmd" "fig:one Plot One"].
Proof.
  assert (Hov : unsavedFiles_ Demo.world !! "ch1.Rmd"
                = Some (mkXRefFileIndex "ch1.Rmd" ["fig:one Plot One"]))
    by (vm_compute; reflexivity).
  split; [exact Hov|]. split.
  - exact (proj1 (proj2 (project_query_overlay_then_store Demo.world) "ch1.Rmd") _ Hov).
  - rewrite (proj1 (project_query_overlay_then_store Demo.world)).
    vm_compute. reflexivity.
Defined.

Section monitor.

Context `{Platform}.

Lemma xrefIndexFilePath_of_run rmdFile w :
  xrefIndexFilePath_of rmdFile w = (xrefIndexPath (bookRelativePath rmdFile), w).
Proof. reflexivity. Qed.

Lemma indexForDoc_of_same_store rmdFile w :
  same_store w (snd (indexForDoc_of rmdFile w)).
Proof.
  unfold indexForDoc_of, indexForDoc_in, fs.readStringFromFile. run.
  destruct (files w !! rmdFile) as [f|]; simpl.
  - apply indexForDoc_same_store.
  - set (w1 := mkWorld _ _ _ _).
    destruct (indexForDoc_same_store (bookRelativePath rmdFile) EmptyString w1)
      as (Hf & Hc & Hu).
    unfold same_store. rewrite Hf, Hc, Hu. auto.
Qed.

(** C2, as the code has it.  For every file-change event and world, with
    [idxFile] the persisted index file of the event's document:
    an Add that finds [idxFile] on disk with a last-write time strictly
    newer than the document's returns with the world as it was;
    a Modify of a document that exists on disk rewrites [idxFile] with the
    freshly computed File Index, whatever the two time stamps are;
    a Remove deletes [idxFile] and touches no other file. *)
Theorem fileChangeHandler_dispatch (event : FileChangeEvent) (w : World) :
  let rmdFile := absolutePath (fileInfo event) in
  let idxFile := xrefIndexPath (bookRelativePath rmdFile) in
  (type event = FileAdded ->
   is_Some (files w !! idxFile) ->
   fst (fs.getLastWriteTime rmdFile w) < fst (fs.getLastWriteTime idxFile w) ->
   fileChangeHandler event w = (tt, w))
  /\ (type event = FileModified ->
      is_Some (files w !! rmdFile) ->
      reindexed rmdFile w (snd (fileChangeHandler event w)))
  /\ (type event = FileRemoved ->
      files (snd (fileChangeHandler event w)) = delete idxFile (files w)).
Proof.
  intros rmdFile idxFile.
  split; [|split]; intros Hty; unfold fileChangeHandler;
    unfold bind at 1; rewrite xrefIndexFilePath_of_run; fold rmdFile idxFile;
    rewrite Hty; cbv beta iota.
  - intros Hthere Hnewer.
    unfold bind at 1. unfold bind at 1. unfold fs.exists_ at 1, gets at 1.
    rewrite bool_decide_eq_true_2 by exact Hthere.
    unfold bind at 1. unfold bind at 1.
    destruct (fs.getLastWriteTime idxFile w) as [ti w1] eqn:Hti.
    assert (w1 = w) by (unfold fs.getLastWriteTime, gets in Hti; congruence). subst w1.
    destruct (fs.getLastWriteTime rmdFile w) as [tr w1] eqn:Htr.
    assert (w1 = w) by (unfold fs.getLastWriteTime, gets in Htr; congruence). subst w1.
    simpl in Hnewer. unfold ret at 1.
    replace (ti >? tr) with true by (symmetry; apply Z.gtb_lt; exact Hnewer).
    reflexivity.
  - intros Hthere. unfold reindexed.
    unfold bind at 1. unfold ret at 1.
    unfold bind at 1. unfold fs.exists_ at 1, gets at 1.
    rewrite bool_decide_eq_true_2 by exact Hthere.
    unfold bind at 1.
    destruct (indexForDoc_of_same_store rmdFile w) as (Hf & Hc & _).
    destruct (indexForDoc_of rmdFile w) as [idx w1]. simpl in Hf, Hc.
    unfold fs.writeStringVectorToFile. run. rewrite Hf, Hc. reflexivity.
  - reflexivity.
Qed.

End monitor.

Lemma fileChangeHandler_dispatch_witness :
  fileChangeHandler (mkFileChangeEvent FileAdded (mkFileInfo "/book/ch1.Rmd")) Demo.world
  = (tt, Demo.world)
  /\ reindexed "/book/ch1.Rmd" Demo.world
       (snd (fileChangeHandler (mkFileChangeEvent FileModified (mkFileInfo "/book/ch1.Rmd"))
               Demo.world))
  /\ files (snd (fileChangeHandler (mkFileChangeEvent FileRemoved (mkFileInfo "/book/ch1.Rmd"))
                  Demo.world))
     = delete "/scratch/bookdown-xrefs/ch1.Rmd.xref" (files Demo.world).
Proof.
  split; [|split].
  - apply (proj1 (fileChangeHandler_dispatch
                    (mkFileChangeEvent FileAdded (mkFileInfo "/book/ch1.Rmd")) Demo.world)).
    + reflexivity.
    + vm_compute. eauto.
    + vm_compute. reflexivity.
  - apply (proj1 (proj2 (fileChangeHandler_dispatch
                    (mkFileChangeEvent FileModified (mkFileInfo "/book/ch1.Rmd")) Demo.world))).
    + reflexivity.
    + vm_compute. eauto.
  - exact (proj2 (proj2 (fileChangeHandler_dispatch
                    (mkFileChangeEvent FileRemoved (mkFileInfo "/book/ch1.Rmd")) Demo.world))
             eq_refl).
Defined.

(** C2 as stated fails: a Modify event for a document that is no longer
    on disk does not re-index; the handler leaves the world as it was. *)
Lemma modify_of_missing_document_not_reindexed :
  let event := mkFileChangeEvent FileModified (mkFileInfo "/book/gone.Rmd") in
  type event = FileModified
  /\ fileChangeHandler event Demo.world = (tt, Demo.world)
  /\ ~ reindexed "/book/gone.Rmd" Demo.world (snd (fileChangeHandler event Demo.world)).
Proof.
  intros event. split; [reflexivity|]. split; [vm_compute; reflexivity|].
  unfold reindexed. intros Heq.
  apply (f_equal (fun m => bool_decide (is_Some (m !! "/scratch/bookdown-xrefs/gone.Rmd.xref")))) in Heq.
  vm_compute in Heq. discriminate Heq.
Qed.

(** ** The transform to Structured Records *)

Lemma find_first_of_Some (c : ascii) (s : string) (n : nat) :
  str.find_first_of c s = Some n ->
  s = str.prefix n s +:+ String c (str.suffix (S n) s)
  /\ str.find_first_of c (str.prefix n s) = None.
Proof.
  revert n. induction s as [|a s IH]; intros n; simpl; [discriminate|].
  destruct (Ascii.eqb_spec a c) as [-> | Hne].
  - intros [= <-]. simpl. destruct s; auto.
  - destruct (str.find_first_of c s) as [m|] eqn:Hm; simpl; [|discriminate].
    intros [= <-]. destruct (IH m eq_refl) as [Hs Hp].
    split.
    + change (String a s
              = String a (str.prefix m s +:+ String c (str.suffix (S m) s))).
      f_equal. exact Hs.
    + simpl. destruct (Ascii.eqb_spec a c); [contradiction|]. rewrite Hp. reflexivity.
Qed.

Lemma nonempty_length (s : string) :
  (0 <? String.length s)%nat = negb (String.eqb s EmptyString).
Proof. destruct s; reflexivity. Qed.

Lemma resolvedTitle_default (m : gmap string string) (title : string) :
  resolvedTitle m title
  = if String.eqb (default EmptyString (m !! title)) EmptyString
    then title else default EmptyString (m !! title).
Proof. unfold resolvedTitle. destruct (m !! title); reflexivity. Qed.

Lemma resolvedTitle_same_titles (m m' : gmap string string) (title : string) :
  same_titles m m' -> resolvedTitle m' title = resolvedTitle m title.
Proof. intros Hs. rewrite !resolvedTitle_default, (Hs title). reflexivity. Qed.

Lemma map_index_spec (m : gmap string string) (k : string) :
  fst (map_index m k) = default EmptyString (m !! k)
  /\ same_titles m (snd (map_index m k)).
Proof.
  unfold map_index, same_titles. destruct (m !! k) as [v|] eqn:Hk; simpl.
  - split; [reflexivity | auto].
  - split; [reflexivity|]. intros k'.
    destruct (decide (k = k')) as [<- | Hne].
    + rewrite lookup_insert_eq, Hk. reflexivity.
    + rewrite lookup_insert_ne by exact Hne. reflexivity.
Qed.

Section transform.

Context `{Platform}.

Lemma writeEntryId_other (id : string) (o : json.Object) (k : string) :
  k <> "type" -> k <> "id" -> writeEntryId id o !! k = o !! k.
Proof.
  intros Hty Hid. unfold writeEntryId.
  destruct (str.find_first_of ":" id);
    rewrite !lookup_insert_ne by congruence; reflexivity.
Qed.

Lemma writeEntryId_idSplit (token : string) (o : json.Object) :
  idSplit token (writeEntryId token o).
Proof.
  unfold idSplit, writeEntryId.
  destruct (str.find_first_of ":" token) as [n|] eqn:Hn.
  - left. destruct (find_first_of_Some _ _ _ Hn) as [Htok Hty].
    exists (str.prefix n token), (str.suffix (S n) token).
    split; [exact Htok|]. split; [exact Hty|]. split.
    + rewrite lookup_insert_ne by discriminate. apply lookup_insert_eq.
    + apply lookup_insert_eq.
  - right. split; [reflexivity|]. split.
    + rewrite lookup_insert_ne by discriminate. apply lookup_insert_eq.
    + apply lookup_insert_eq.
Qed.

Lemma idSplit_insert_title (token : string) (o : json.Object) (v : json.Value) :
  idSplit token o -> idSplit token (<["title" := v]> o).
Proof.
  unfold idSplit. intros [(ty & id & ? & ? & ? & ?) | (? & ? & ?)].
  - left. exists ty, id. rewrite !lookup_insert_ne by discriminate. auto.
  - right. rewrite !lookup_insert_ne by discriminate. auto.
Qed.

(** The loop body against the Record of the entry. *)
Lemma pushXRef_recordOf (m : gmap string string) (acc : json.Array) (e : XRefIndexEntry) :
  snd (pushXRef (m, acc) e) = acc ++ option_list (recordOf m e)
  /\ same_titles m (fst (pushXRef (m, acc) e)).
Proof.
  unfold pushXRef, recordOf. rewrite nonempty_length, insert_empty.
  destruct (String.eqb (entry e) EmptyString); simpl.
  { rewrite app_nil_r. split; [reflexivity | intros k; reflexivity]. }
  destruct (str.find_first_of " " (entry e)) as [spacePos|]; simpl.
  - destruct (map_index_spec m (str.suffix (S spacePos) (entry e))) as [Hv Hs].
    destruct (map_index m _) as [textrefTitle m']. simpl in Hv, Hs. simpl.
    split; [|exact Hs].
    rewrite nonempty_length, resolvedTitle_default, <- Hv.
    destruct (String.eqb textrefTitle EmptyString); reflexivity.
  - split; [reflexivity | intros k; reflexivity].
Qed.

Lemma recordOf_same_titles (m m' : gmap string string) (e : XRefIndexEntry) :
  same_titles m m' -> recordOf m' e = recordOf m e.
Proof.
  intros Hs. unfold recordOf.
  destruct (String.eqb (entry e) EmptyString); [reflexivity|].
  destruct (str.find_first_of " " (entry e)); [|reflexivity].
  rewrite (resolvedTitle_same_titles m m' _ Hs). reflexivity.
Qed.

Lemma same_titles_trans (m1 m2 m3 : gmap string string) :
  same_titles m1 m2 -> same_titles m2 m3 -> same_titles m1 m3.
Proof. intros H12 H23 k. rewrite (H23 k). apply H12. Qed.

Lemma pushXRef_loop (m0 m : gmap string string) (acc : json.Array)
    (ns : list XRefIndexEntry) :
  same_titles m0 m ->
  snd (fold_left pushXRef ns (m, acc)) = acc ++ omap (recordOf m0) ns.
Proof.
  revert m acc. induction ns as [|e ns IH]; intros m acc Hs; cbn [fold_left].
  - simpl. rewrite app_nil_r. reflexivity.
  - destruct (pushXRef_recordOf m acc e) as [Hacc Hm].
    destruct (pushXRef (m, acc) e) as [m' acc']. simpl in Hacc, Hm. subst acc'.
    rewrite (IH m' _ (same_titles_trans _ _ _ Hs Hm)).
    rewrite (recordOf_same_titles m0 m e Hs), <- app_assoc.
    destruct (recordOf m0 e) as [v|] eqn:Hr; cbn [omap list_omap option_list];
      rewrite Hr; reflexivity.
Qed.

(** The first loop against the collected map and the normal entries. *)
Lemma splitTextRefs_snoc (es : list XRefIndexEntry) (e : XRefIndexEntry) :
  splitTextRefs (es ++ [e])
  = match regex.regex_search (entry e) textRefRe with
    | Some matches =>
        (<[regex.sub matches 1 := regex.sub matches 2]> (fst (splitTextRefs es)),
         snd (splitTextRefs es))
    | None => (fst (splitTextRefs es), snd (splitTextRefs es) ++ [e])
    end.
Proof.
  unfold splitTextRefs. rewrite fold_left_app. simpl.
  destruct (fold_left _ es (∅, [])) as [m ns]. reflexivity.
Qed.

Lemma splitTextRefs_spec (es : list XRefIndexEntry) :
  splitTextRefs es = (collectedTextRefs es, List.filter isNormal es).
Proof.
  induction es as [|e es IH] using rev_ind; [reflexivity|].
  rewrite splitTextRefs_snoc, IH. cbn [fst snd].
  unfold collectedTextRefs. rewrite omap_app, List.filter_app.
  cbn [omap list_omap List.filter].
  destruct (regex.regex_search (entry e) textRefRe) as [matches|] eqn:Hre.
  - assert (Hk : textRefOf e = Some (regex.sub matches 1, regex.sub matches 2))
      by (unfold textRefOf; rewrite Hre; reflexivity).
    assert (Hn : isNormal e = false)
      by (unfold isNormal, isTextRef; rewrite Hre; reflexivity).
    rewrite Hk, Hn, reverse_app, app_nil_r. reflexivity.
  - assert (Hk : textRefOf e = None) by (unfold textRefOf; rewrite Hre; reflexivity).
    assert (Hn : isNormal e = true)
      by (unfold isNormal, isTextRef; rewrite Hre; reflexivity).
    rewrite Hk, Hn, app_nil_r. reflexivity.
Qed.

Lemma indexEntriesToXRefs_records (es : list XRefIndexEntry) :
  indexEntriesToXRefs es
  = omap (recordOf (collectedTextRefs es)) (List.filter isNormal es).
Proof.
  unfold indexEntriesToXRefs. rewrite splitTextRefs_spec.
  rewrite (pushXRef_loop (collectedTextRefs es)); [reflexivity|].
  intros k. reflexivity.
Qed.

Lemma collectedTextRefs_is_Some (es : list XRefIndexEntry) e k v :
  e ∈ es -> textRefOf e = Some (k, v) -> is_Some (collectedTextRefs es !! k).
Proof.
  intros He Hkv. unfold collectedTextRefs.
  destruct (list_to_map (reverse (omap textRefOf es)) !! k) as [x|] eqn:Hx;
    [eauto|].
  exfalso. apply not_elem_of_list_to_map_2 in Hx. apply Hx.
  apply list_elem_of_fmap. exists (k, v). split; [reflexivity|].
  apply elem_of_reverse, list_elem_of_omap. exists e. auto.
Qed.

Lemma recordOf_is_Some (m : gmap string string) (e : XRefIndexEntry) :
  is_Some (recordOf m e) <-> entry e <> EmptyString.
Proof.
  unfold recordOf. destruct (String.eqb_spec (entry e) EmptyString) as [-> | Hne].
  - split; [intros [? ?]; discriminate | congruence].
  - split; [auto|]. intros _. destruct (str.find_first_of " " (entry e)); eauto.
Qed.

Lemma recordOf_file (m : gmap string string) (e : XRefIndexEntry) (v : json.Value) :
  recordOf m e = Some v ->
  exists o, v = json.Obj o /\ o !! "file" = Some (json.Str (file e)).
Proof.
  unfold recordOf. destruct (String.eqb (entry e) EmptyString); [discriminate|].
  destruct (str.find_first_of " " (entry e)); intros [= <-]; eexists; (split; [reflexivity|]).
  - rewrite lookup_insert_ne by discriminate.
    rewrite writeEntryId_other by discriminate. apply lookup_singleton_eq.
  - rewrite writeEntryId_other by discriminate. apply lookup_singleton_eq.
Qed.

End transform.

Lemma length_omap_filter {A B} (f : A -> option B) (l : list A) :
  length (omap f l) = length (List.filter (fun x => bool_decide (is_Some (f x))) l).
Proof.
  induction l as [|x l IH]; [reflexivity|].
  cbn [omap list_omap List.filter]. destruct (f x) as [y|] eqn:Hx.
  - rewrite bool_decide_eq_true_2 by eauto. simpl. f_equal. exact IH.
  - rewrite bool_decide_eq_false_2 by (intros [? ?]; discriminate). exact IH.
Qed.

Section records.

Context `{Platform}.

(** C3, as the code has it.  Every entry that matches the indirect
    pattern goes into the key-to-title map (a later one replacing an
    earlier one with the same key) and the Records are those of the other
    entries only, in their order.  The title of a Record is its literal
    title, replaced by the value the map holds for exactly that text when
    this value is not empty; a literal title that is no key of the map, or
    a key with an empty value, stays as it is. *)
Theorem indirect_entries_resolved_then_discarded (es : list XRefIndexEntry) :
  let textRefs := collectedTextRefs es in
  fst (splitTextRefs es) = textRefs
  /\ (forall e k v, e ∈ es -> textRefOf e = Some (k, v) -> is_Some (textRefs !! k))
  /\ indexEntriesToXRefs es = omap (recordOf textRefs) (List.filter isNormal es)
  /\ (forall e spacePos,
        entry e <> EmptyString ->
        str.find_first_of " " (entry e) = Some spacePos ->
        exists o, recordOf textRefs e = Some (json.Obj o) /\
          o !! "title"
          = Some (json.Str (resolvedTitle textRefs (str.suffix (S spacePos) (entry e)))))
  /\ (forall title v,
        textRefs !! title = Some v -> v <> EmptyString -> resolvedTitle textRefs title = v)
  /\ (forall title, textRefs !! title = None -> resolvedTitle textRefs title = title).
Proof.
  intros textRefs. split; [|split; [|split; [|split; [|split]]]].
  - rewrite splitTextRefs_spec. reflexivity.
  - intros e k v. apply collectedTextRefs_is_Some.
  - apply indexEntriesToXRefs_records.
  - intros e spacePos Hne Hsp. unfold recordOf.
    destruct (String.eqb_spec (entry e) EmptyString) as [Heq | _]; [contradiction|].
    rewrite Hsp. eexists. split; [reflexivity|]. apply lookup_insert_eq.
  - intros title v Hv Hne. unfold resolvedTitle. rewrite Hv.
    destruct (String.eqb_spec v EmptyString); [contradiction | reflexivity].
  - intros title Hnone. unfold resolvedTitle. rewrite Hnone. reflexivity.
Qed.

(** C4, as the code has it.  For every normal entry with text, the loop
    appends one Record, with the file of the entry.  When the entry has a
    space, it is id-token, space, title, the id-token having no space, and
    the Record's title is that title as resolved against the map; when it
    has no space, the whole entry is the id-token and the Record has no
    title member.  In both cases the id-token is split on its first colon
    into type and id, and without a colon the type is empty and the id is
    the whole token. *)
Theorem record_of_normal_entry (textRefs : gmap string string) (xrefsJson : json.Array)
    (indexEntry : XRefIndexEntry) :
  entry indexEntry <> EmptyString ->
  exists o,
    snd (pushXRef (textRefs, xrefsJson) indexEntry) = xrefsJson ++ [json.Obj o]
    /\ o !! "file" = Some (json.Str (file indexEntry))
    /\ ((exists token title,
           entry indexEntry = token +:+ String " " title
           /\ str.find_first_of " " token = None
           /\ idSplit token o
           /\ o !! "title" = Some (json.Str (resolvedTitle textRefs title)))
        \/ (str.find_first_of " " (entry indexEntry) = None
            /\ idSplit (entry indexEntry) o
            /\ o !! "title" = None)).
Proof.
  intros Hne.
  destruct (pushXRef_recordOf textRefs xrefsJson indexEntry) as [Hacc _].
  rewrite Hacc. clear Hacc. unfold recordOf.
  destruct (String.eqb_spec (entry indexEntry) EmptyString) as [Heq | _]; [contradiction|].
  destruct (str.find_first_of " " (entry indexEntry)) as [spacePos|] eqn:Hsp.
  - eexists. split; [reflexivity|]. split.
    + rewrite lookup_insert_ne by discriminate.
      rewrite writeEntryId_other by discriminate. apply lookup_singleton_eq.
    + left. destruct (find_first_of_Some _ _ _ Hsp) as [Hentry Htoken].
      exists (str.prefix spacePos (entry indexEntry)),
             (str.suffix (S spacePos) (entry indexEntry)).
      split; [exact Hentry|]. split; [exact Htoken|]. split.
      * apply idSplit_insert_title, writeEntryId_idSplit.
      * apply lookup_insert_eq.
  - eexists. split; [reflexivity|]. split.
    + rewrite writeEntryId_other by discriminate. apply lookup_singleton_eq.
    + right. split; [reflexivity|]. split; [apply writeEntryId_idSplit|].
      rewrite writeEntryId_other by discriminate. apply lookup_singleton_ne. discriminate.
Qed.

(** C7, as the code has it.  The loop appends a Record for a normal entry
    exactly when the entry has at least one character, white space
    included: an entry of length zero adds nothing, any other entry adds
    one Record, and the transform yields as many Records as there are
    normal entries with text. *)
Theorem record_iff_entry_has_text (es : list XRefIndexEntry) :
  (forall textRefs xrefsJson e,
      entry e = EmptyString -> pushXRef (textRefs, xrefsJson) e = (textRefs, xrefsJson))
  /\ (forall textRefs xrefsJson e,
        entry e <> EmptyString ->
        exists r, snd (pushXRef (textRefs, xrefsJson) e) = xrefsJson ++ [r])
  /\ length (indexEntriesToXRefs es) = length (List.filter hasRecord es).
Proof.
  split; [|split].
  - intros textRefs xrefsJson e He. unfold pushXRef. rewrite He. reflexivity.
  - intros textRefs xrefsJson e He.
    destruct (pushXRef_recordOf textRefs xrefsJson e) as [Hacc _]. rewrite Hacc.
    destruct (proj2 (recordOf_is_Some textRefs e) He) as [r ->]. exists r. reflexivity.
  - rewrite indexEntriesToXRefs_records, length_omap_filter.
    generalize (collectedTextRefs es). intros m.
    induction es as [|e es IH]; [reflexivity|].
    unfold hasRecord in *. cbn [List.filter].
    destruct (isNormal e); cbn [List.filter andb]; [|exact IH].
    destruct (String.eqb_spec (entry e) EmptyString) as [Heq | Hne].
    + rewrite bool_decide_eq_false_2 by (rewrite recordOf_is_Some; tauto). exact IH.
    + rewrite bool_decide_eq_true_2 by (rewrite recordOf_is_Some; exact Hne).
      simpl. f_equal. exact IH.
Qed.

End records.

Lemma indirect_entries_resolved_then_discarded_witness :
  let es := [mkXRefIndexEntry "a.Rmd" "(fig1) Custom Title";
             mkXRefIndexEntry "a.Rmd" "fig:plot fig1";
             mkXRefIndexEntry "a.Rmd" "fig:two (fig1)"] in
  is_Some (collectedTextRefs es !! "(fig1)")
  /\ resolvedTitle (collectedTextRefs es) "(fig1)" = "Custom Title"
  /\ resolvedTitle (collectedTextRefs es) "fig1" = "fig1"
  /\ indexEntriesToXRefs es
     = [xref "a.Rmd" "fig" "plot" "fig1"; xref "a.Rmd" "fig" "two" "Custom Title"].
Proof.
  intros es.
  destruct (indirect_entries_resolved_then_discarded es)
    as (_ & Hkeys & Hrecords & _ & Hsubst & Hkeep).
  split; [|split; [|split]].
  - apply (Hkeys (mkXRefIndexEntry "a.Rmd" "(fig1) Custom Title") "(fig1)" "Custom Title").
    + apply list_elem_of_here.
    + vm_compute. reflexivity.
  - apply Hsubst; [vm_compute; reflexivity | discriminate].
  - apply Hkeep. vm_compute. reflexivity.
  - rewrite Hrecords. vm_compute. reflexivity.
Defined.

(** C3 as stated fails: the title "(k)" equals a collected key whose
    value is empty, and the Record keeps "(k)" instead of taking the
    value. *)
Lemma empty_text_reference_not_substituted :
  let es := [mkXRefIndexEntry "a.Rmd" "(k) "; mkXRefIndexEntry "a.Rmd" "fig:a (k)"] in
  fst (splitTextRefs es) !! "(k)" = Some EmptyString
  /\ indexEntriesToXRefs es = [xref "a.Rmd" "fig" "a" "(k)"]
  /\ indexEntriesToXRefs es <> [xref "a.Rmd" "fig" "a" EmptyString].
Proof.
  intros es. split; [vm_compute; reflexivity|].
  assert (Hrun : indexEntriesToXRefs es = [xref "a.Rmd" "fig" "a" "(k)"])
    by (vm_compute; reflexivity).
  split; [exact Hrun|]. rewrite Hrun. intros Heq.
  apply (f_equal (fun l => match l with
                           | [json.Obj o] => o !! "title"
                           | _ => None
                           end)) in Heq.
  vm_compute in Heq. discriminate Heq.
Qed.

Lemma record_of_normal_entry_witness :
  entry (mkXRefIndexEntry "a.Rmd" "fig:plot A plot") <> EmptyString
  /\ exists o,
       snd (pushXRef (∅, []) (mkXRefIndexEntry "a.Rmd" "fig:plot A plot")) = [] ++ [json.Obj o]
       /\ o !! "file" = Some (json.Str "a.Rmd")
       /\ ((exists token title,
              "fig:plot A plot" = token +:+ String " " title
              /\ str.find_first_of " " token = None
              /\ idSplit token o
              /\ o !! "title" = Some (json.Str (resolvedTitle ∅ title)))
           \/ (str.find_first_of " " "fig:plot A plot" = None
               /\ idSplit "fig:plot A plot" o
               /\ o !! "title" = None)).
Proof.
  assert (Hne : entry (mkXRefIndexEntry "a.Rmd" "fig:plot A plot") <> EmptyString)
    by (simpl; discriminate).
  split; [exact Hne|].
  exact (record_of_normal_entry ∅ [] (mkXRefIndexEntry "a.Rmd" "fig:plot A plot") Hne).
Defined.

(** C4 as stated fails: for an entry without a space the Record has no
    title member at all, rather than a title that is the empty string. *)
Lemma entry_without_space_has_no_title :
  let es := [mkXRefIndexEntry "a.Rmd" "fig:plot"] in
  indexEntriesToXRefs es = [xrefNoTitle "a.Rmd" "fig" "plot"]
  /\ indexEntriesToXRefs es <> [xref "a.Rmd" "fig" "plot" EmptyString].
Proof.
  intros es.
  assert (Hrun : indexEntriesToXRefs es = [xrefNoTitle "a.Rmd" "fig" "plot"])
    by (vm_compute; reflexivity).
  split; [exact Hrun|]. rewrite Hrun. intros Heq.
  apply (f_equal (fun l => match l with
                           | [json.Obj o] => o !! "title"
                           | _ => None
                           end)) in Heq.
  vm_compute in Heq. discriminate Heq.
Qed.

Lemma record_iff_entry_has_text_witness :
  let es := [mkXRefIndexEntry "a.Rmd" "(k) v"; mkXRefIndexEntry "a.Rmd" "";
             mkXRefIndexEntry "a.Rmd" " "; mkXRefIndexEntry "a.Rmd" "fig:plot"] in
  pushXRef (∅, []) (mkXRefIndexEntry "a.Rmd" "") = (∅, [])
  /\ (exists r, snd (pushXRef (∅, []) (mkXRefIndexEntry "a.Rmd" " ")) = [] ++ [r])
  /\ length (indexEntriesToXRefs es) = 2%nat.
Proof.
  intros es.
  destruct (record_iff_entry_has_text es) as (Hdrop & Hemit & Hcount).
  split; [|split].
  - apply Hdrop. reflexivity.
  - apply Hemit. simpl. discriminate.
  - rewrite Hcount. vm_compute. reflexivity.
Defined.

(** C7 as stated fails: an entry of one space is blank after trimming,
    and it is normal, yet the transform gives it a Record. *)
Lemma blank_entry_yields_record :
  let e := mkXRefIndexEntry "a.Rmd" " " in
  blank (entry e) = true
  /\ isNormal e = true
  /\ indexEntriesToXRefs [e] = [xref "a.Rmd" EmptyString EmptyString EmptyString]
  /\ indexEntriesToXRefs [e] <> [].
Proof.
  intros e. split; [reflexivity|]. split; [vm_compute; reflexivity|].
  assert (Hrun : indexEntriesToXRefs [e]
                 = [xref "a.Rmd" EmptyString EmptyString EmptyString])
    by (vm_compute; reflexivity).
  split; [exact Hrun|]. rewrite Hrun. discriminate.
Qed.

(** ** The RPC method *)

Lemma indexEntriesToXRefs_file (es : list XRefIndexEntry) (v : json.Value) :
  v ∈ indexEntriesToXRefs es ->
  exists e o, e ∈ es /\ v = json.Obj o /\ o !! "file" = Some (json.Str (file e)).
Proof.
  rewrite indexEntriesToXRefs_records. intros Hv.
  apply list_elem_of_omap in Hv as (e & He & Hr).
  apply recordOf_file in Hr as (o & -> & Hfile).
  exists e, o. split; [|auto].
  apply list_elem_of_In. apply list_elem_of_In, List.filter_In in He. tauto.
Qed.

Lemma indexEntriesForFile_file (fileIndex : XRefFileIndex) (e : XRefIndexEntry) :
  e ∈ indexEntriesForFile fileIndex -> file e = index_file fileIndex.
Proof.
  unfold indexEntriesForFile. rewrite push_entries_app. simpl.
  intros He. apply list_elem_of_fmap in He as (x & -> & _). reflexivity.
Qed.

Section rpc.

Context `{Platform}.

(** C6. A request whose parameters read well, for a path that is not a
    document of the book in a bookdown context, and which the source
    database cannot resolve (no id for the path, or no document for the
    id), is answered with Success and the empty array.  And whenever the
    handler returns Success, the result it has set is an array. *)
Theorem unresolvable_document_gives_empty_array
    (request : JsonRpcRequest) (pResponse : JsonRpcResponse) (w : World) :
  (forall file,
      readParams (params request) = (Success, file) ->
      isBookdownContext && isWithin (resolveAliasedPath file) buildTargetPath = false ->
      snd (source_database_getId (resolveAliasedPath file)) = EmptyString
      \/ isError (fst (source_database_get
                         (snd (source_database_getId (resolveAliasedPath file))))) = true ->
      fst (xrefIndexForFile request pResponse w)
      = (Success, mkResponse (Some (json.Arr []))))
  /\ (forall r,
        fst (xrefIndexForFile request pResponse w) = (Success, r) ->
        exists a, result r = Some (json.Arr a)).
Proof.
  unfold xrefIndexForFile. split.
  - intros file -> Hmode Hunres. simpl. rewrite Hmode.
    destruct (source_database_getId (resolveAliasedPath file)) as [e id]. simpl in Hunres.
    destruct (String.eqb_spec id EmptyString) as [-> | Hid]; simpl; [reflexivity|].
    destruct Hunres as [Hempty | Hget]; [contradiction|].
    destruct (source_database_get id) as [error pDoc]. simpl in Hget.
    rewrite Hget. reflexivity.
  - intros r. destruct (readParams (params request)) as [error file].
    destruct (isError error) eqn:Herr.
    { unfold ret. simpl. intros [= -> _]. discriminate Herr. }
    destruct (isBookdownContext && isWithin (resolveAliasedPath file) buildTargetPath).
    { unfold bind, ret. destruct (indexEntriesForProject w) as [es w1]. simpl.
      intros [= <-]. eexists. reflexivity. }
    destruct (source_database_getId (resolveAliasedPath file)) as [e id].
    destruct (negb (String.eqb id EmptyString)).
    + destruct (source_database_get id) as [error' pDoc].
      destruct (isError error').
      * run. intros [= <-]. eexists. reflexivity.
      * unfold bind, ret. destruct (indexForDoc _ _ w) as [idx w1]. simpl.
        intros [= <-]. eexists. reflexivity.
    + unfold ret. simpl. intros [= <-]. eexists. reflexivity.
Qed.

(** C10. In single-document mode every Record of the answer carries, as
    its file, the filename component of the requested path: what
    [getFilename] gives for the resolved path, and not a path relative to
    the book. *)
Theorem single_document_records_carry_filename
    (request : JsonRpcRequest) (pResponse : JsonRpcResponse) (w : World)
    (file : string) (r : JsonRpcResponse) :
  readParams (params request) = (Success, file) ->
  isBookdownContext && isWithin (resolveAliasedPath file) buildTargetPath = false ->
  fst (xrefIndexForFile request pResponse w) = (Success, r) ->
  exists a,
    result r = Some (json.Arr a)
    /\ forall v, v ∈ a ->
         exists o, v = json.Obj o
                   /\ o !! "file" = Some (json.Str (getFilename (resolveAliasedPath file))).
Proof.
  unfold xrefIndexForFile. intros -> Hmode. simpl. rewrite Hmode.
  destruct (source_database_getId (resolveAliasedPath file)) as [e id].
  destruct (negb (String.eqb id EmptyString)).
  - destruct (source_database_get id) as [error pDoc].
    destruct (isError error).
    + run. intros [= <-]. exists []. split; [reflexivity|].
      intros v Hv. apply elem_of_nil in Hv. contradiction.
    + unfold bind, ret.
      pose proof (indexForDoc_file (getFilename (resolveAliasedPath file))
                    (doc_contents pDoc) w) as Hfile.
      destruct (indexForDoc _ _ w) as [idx w1]. simpl in Hfile. simpl.
      intros [= <-]. eexists. split; [reflexivity|].
      intros v Hv. apply indexEntriesToXRefs_file in Hv as (x & o & Hx & -> & Ho).
      exists o. split; [reflexivity|].
      rewrite Ho, (indexEntriesForFile_file idx x Hx), Hfile. reflexivity.
  - unfold ret. simpl. intros [= <-]. exists []. split; [reflexivity|].
    intros v Hv. apply elem_of_nil in Hv. contradiction.
Qed.

End rpc.

Lemma unresolvable_document_gives_empty_array_witness :
  let request := mkRequest [json.Str "/tmp/none.Rmd"] in
  fst (xrefIndexForFile request (mkResponse None) Demo.world)
  = (Success, mkResponse (Some (json.Arr [])))
  /\ exists a, result (mkResponse (Some (json.Arr []))) = Some (json.Arr a).
Proof.
  intros request.
  destruct (unresolvable_document_gives_empty_array request (mkResponse None) Demo.world)
    as [Hempty Harray].
  assert (Hrun : fst (xrefIndexForFile request (mkResponse None) Demo.world)
                 = (Success, mkResponse (Some (json.Arr [])))).
  { apply (Hempty "/tmp/none.Rmd").
    - reflexivity.
    - vm_compute. reflexivity.
    - left. vm_compute. reflexivity. }
  split; [exact Hrun|]. apply Harray. exact Hrun.
Defined.

Lemma single_document_records_carry_filename_witness :
  let request := mkRequest [json.Str "/home/u/notes/sub/doc.Rmd"] in
  let r := mkResponse (Some (json.Arr [xref "doc.Rmd" "fig" "plot" "A long caption";
                                       xref "doc.Rmd" "" "intro" "Getting started"])) in
  fst (xrefIndexForFile request (mkResponse None) Demo.world) = (Success, r)
  /\ exists a,
       result r = Some (json.Arr a)
       /\ forall v, v ∈ a ->
            exists o, v = json.Obj o /\ o !! "file" = Some (json.Str "doc.Rmd").
Proof.
  intros request r.
  assert (Hrun : fst (xrefIndexForFile request (mkResponse None) Demo.world) = (Success, r))
    by (vm_compute; reflexivity).
  assert (Hmode : isBookdownContext
                  && isWithin (resolveAliasedPath "/home/u/notes/sub/doc.Rmd") buildTargetPath
                  = false)
    by (vm_compute; reflexivity).
  split; [exact Hrun|].
  exact (single_document_records_carry_filename request (mkResponse None) Demo.world
           "/home/u/notes/sub/doc.Rmd" r eq_refl Hmode Hrun).
Defined.

(** ** More on the monitor callback *)

Lemma bind_run {A B} (c : M A) (k : A -> M B) (w : World) :
  bind c k w = k (fst (c w)) (snd (c w)).
Proof. unfold bind. destruct (c w). reflexivity. Qed.

Section monitor_more.

Context `{Platform}.

(** The handler once the index path is known and the freshness test on
    Add has said no: re-index on Add and Modify when the document is
    there, delete on Remove. *)
Lemma fileChangeHandler_reindex (event : FileChangeEvent) (w : World) :
  let rmdFile := absolutePath (fileInfo event) in
  let idxFile := xrefIndexPath (bookRelativePath rmdFile) in
  type event = FileModified
  \/ (type event = FileAdded /\
      (files w !! idxFile = None \/
       fst (fs.getLastWriteTime idxFile w) <= fst (fs.getLastWriteTime rmdFile w))) ->
  is_Some (files w !! rmdFile) ->
  reindexed rmdFile w (snd (fileChangeHandler event w))
  /\ clock (snd (fileChangeHandler event w)) = clock w
  /\ unsavedFiles_ (snd (fileChangeHandler event w)) = unsavedFiles_ w.
Proof.
  intros rmdFile idxFile Hty Hthere. unfold reindexed, fileChangeHandler.
  rewrite bind_run, xrefIndexFilePath_of_run. cbn [fst snd]. fold rmdFile idxFile.
  rewrite bind_run.
  assert (Hfresh :
    match type event with
    | FileAdded =>
        there <~ fs.exists_ idxFile ;;
        if there : bool then
          ti <~ fs.getLastWriteTime idxFile ;;
          tr <~ fs.getLastWriteTime rmdFile ;;
          ret (ti >? tr)%Z
        else ret false
    | _ => ret false
    end w = (false, w)).
  { destruct Hty as [-> | [-> Hstale]]; [reflexivity|].
    rewrite bind_run. unfold fs.exists_ at 1 2, gets at 1 2. cbn [fst snd].
    destruct Hstale as [Hnone | Hle].
    - rewrite bool_decide_eq_false_2; [reflexivity|].
      rewrite Hnone. intros [? ?]; discriminate.
    - destruct (bool_decide (is_Some (files w !! idxFile))); [|reflexivity].
      rewrite !bind_run. unfold ret.
      unfold fs.getLastWriteTime, gets in *. cbn [fst snd] in *. f_equal.
      rewrite Z.gtb_ltb. apply Z.ltb_ge. exact Hle. }
  rewrite Hfresh. cbn [fst snd].
  assert (Hbody :
    (there <~ fs.exists_ rmdFile ;;
     if there : bool then
       idx <~ indexForDoc_of rmdFile ;;
       error <~ fs.writeStringVectorToFile idxFile (entries idx) ;;
       logIfError error
     else ret tt) w
    = (tt, mkWorld (<[idxFile := mkFile (fs.putlines (entries (fst (indexForDoc_of rmdFile w))))
                                   (clock w)]> (files w))
             (clock w)
             (errorLog (snd (indexForDoc_of rmdFile w)))
             (unsavedFiles_ w))).
  { rewrite bind_run. unfold fs.exists_ at 1 2, gets at 1 2. cbn [fst snd].
    rewrite bool_decide_eq_true_2 by exact Hthere.
    rewrite bind_run.
    destruct (indexForDoc_of_same_store rmdFile w) as (Hf & Hc & Hu).
    destruct (indexForDoc_of rmdFile w) as [idx w1]. cbn [fst snd] in *.
    unfold fs.writeStringVectorToFile. run. rewrite Hf, Hc, Hu. reflexivity. }
  destruct Hty as [Hty | [Hty _]]; rewrite Hty; rewrite Hbody; auto.
Qed.

End monitor_more.

Section monitor_frame.

Context `{Platform}.

(** The freshness test leaves the world alone. *)
Lemma freshness_test_run (rmdFile idxFile : FilePath) (w : World) :
  (there <~ fs.exists_ idxFile ;;
   if there : bool then
     ti <~ fs.getLastWriteTime idxFile ;;
     tr <~ fs.getLastWriteTime rmdFile ;;
     ret (ti >? tr)%Z
   else ret false) w
  = (bool_decide (is_Some (files w !! idxFile))
     && (fst (fs.getLastWriteTime idxFile w) >? fst (fs.getLastWriteTime rmdFile w))%Z,
     w).
Proof.
  rewrite bind_run. unfold fs.exists_ at 1 2, gets at 1 2. cbn [fst snd].
  destruct (bool_decide (is_Some (files w !! idxFile))); [|reflexivity].
  rewrite !bind_run. reflexivity.
Qed.

Lemma fileChangeHandler_skip (event : FileChangeEvent) (w : World) :
  let rmdFile := absolutePath (fileInfo event) in
  let idxFile := xrefIndexPath (bookRelativePath rmdFile) in
  type event = FileAdded ->
  is_Some (files w !! idxFile) ->
  fst (fs.getLastWriteTime rmdFile w) < fst (fs.getLastWriteTime idxFile w) ->
  fileChangeHandler event w = (tt, w).
Proof.
  intros rmdFile idxFile Hty Hthere Hnewer. unfold fileChangeHandler.
  rewrite bind_run, xrefIndexFilePath_of_run. cbn [fst snd]. fold rmdFile idxFile.
  rewrite Hty, bind_run, freshness_test_run. cbn [fst snd].
  rewrite bool_decide_eq_true_2 by exact Hthere.
  replace (_ >? _) with true by (symmetry; apply Z.gtb_lt; exact Hnewer).
  reflexivity.
Qed.

Lemma fileChangeHandler_noop (event : FileChangeEvent) (w : World) :
  type event = NoChange
  \/ (type event <> FileRemoved /\ files w !! absolutePath (fileInfo event) = None) ->
  fileChangeHandler event w = (tt, w).
Proof.
  set (rmdFile := absolutePath (fileInfo event)).
  set (idxFile := xrefIndexPath (bookRelativePath rmdFile)).
  intros Hcase. unfold fileChangeHandler.
  rewrite bind_run, xrefIndexFilePath_of_run. cbn [fst snd]. fold rmdFile idxFile.
  destruct Hcase as [Hty | [Hty Hnone]].
  - rewrite Hty. reflexivity.
  - assert (Hbody : forall k : M unit,
              (there <~ fs.exists_ rmdFile ;; if there : bool then k else ret tt) w = (tt, w)).
    { intros k. rewrite bind_run. unfold fs.exists_, gets. cbn [fst snd].
      rewrite bool_decide_eq_false_2; [reflexivity|].
      rewrite Hnone. intros [? ?]; discriminate. }
    destruct (type event) eqn:Ht; [reflexivity| |contradiction|].
    + rewrite bind_run, freshness_test_run. cbn [fst snd].
      destruct (_ && _); [reflexivity | apply Hbody].
    + rewrite bind_run. unfold ret at 1 2. cbn [fst snd]. apply Hbody.
Qed.

Lemma fileChangeHandler_remove (event : FileChangeEvent) (w : World) :
  type event = FileRemoved ->
  fileChangeHandler event w
  = (tt, mkWorld (delete (xrefIndexPath (bookRelativePath (absolutePath (fileInfo event))))
                    (files w))
           (clock w) (errorLog w) (unsavedFiles_ w)).
Proof.
  intros Hty. unfold fileChangeHandler.
  rewrite bind_run, xrefIndexFilePath_of_run. cbn [fst snd]. rewrite Hty. reflexivity.
Qed.

(** X1. The same test that C2 reads as "skip", read the other way: an Add
    re-indexes a document that is on disk whenever the persisted index is
    missing or is not strictly newer than the document; with equal time
    stamps it re-indexes. *)
Theorem add_reindexes_unless_index_strictly_newer (event : FileChangeEvent) (w : World) :
  let rmdFile := absolutePath (fileInfo event) in
  let idxFile := xrefIndexPath (bookRelativePath rmdFile) in
  type event = FileAdded ->
  is_Some (files w !! rmdFile) ->
  files w !! idxFile = None
  \/ fst (fs.getLastWriteTime idxFile w) <= fst (fs.getLastWriteTime rmdFile w) ->
  reindexed rmdFile w (snd (fileChangeHandler event w)).
Proof.
  intros rmdFile idxFile Hty Hthere Hstale.
  apply (fileChangeHandler_reindex event w); [right; split; assumption | assumption].
Qed.

Lemma fileChangeHandler_frame (event : FileChangeEvent) (w : World) :
  let idxFile := xrefIndexPath (bookRelativePath (absolutePath (fileInfo event))) in
  let w' := snd (fileChangeHandler event w) in
  unsavedFiles_ w' = unsavedFiles_ w
  /\ clock w' = clock w
  /\ forall p, p <> idxFile -> files w' !! p = files w !! p.
Proof.
  intros idxFile w'. subst w'.
  set (rmdFile := absolutePath (fileInfo event)) in *.
  destruct (type event) eqn:Hty.
  - rewrite (fileChangeHandler_noop event w) by (left; exact Hty). auto.
  - destruct (files w !! rmdFile) as [f|] eqn:Hrmd.
    + destruct (files w !! idxFile) as [g|] eqn:Hidx.
      * destruct (Z_lt_le_dec (fst (fs.getLastWriteTime rmdFile w))
                              (fst (fs.getLastWriteTime idxFile w))) as [Hlt | Hle].
        -- rewrite (fileChangeHandler_skip event w Hty) by (fold rmdFile idxFile; eauto).
           auto.
        -- destruct (fileChangeHandler_reindex event w) as (Hf & Hc & Hu);
             [right; split; [exact Hty | right; exact Hle] | fold rmdFile; eauto |].
           split; [exact Hu|]. split; [exact Hc|]. intros p Hp.
           unfold reindexed in Hf. rewrite Hf. apply lookup_insert_ne. intros Heq. apply Hp. symmetry. exact Heq.
      * destruct (fileChangeHandler_reindex event w) as (Hf & Hc & Hu);
          [right; split; [exact Hty | left; exact Hidx] | fold rmdFile; eauto |].
        split; [exact Hu|]. split; [exact Hc|]. intros p Hp.
        unfold reindexed in Hf. rewrite Hf. apply lookup_insert_ne. intros Heq. apply Hp. symmetry. exact Heq.
    + rewrite (fileChangeHandler_noop event w); [auto|].
      right. split; [congruence | exact Hrmd].
  - rewrite (fileChangeHandler_remove event w Hty). cbn [snd files clock unsavedFiles_].
    split; [reflexivity|]. split; [reflexivity|]. intros p Hp.
    apply lookup_delete_ne. intros Heq. apply Hp. symmetry. exact Heq.
  - destruct (files w !! rmdFile) as [f|] eqn:Hrmd.
    + destruct (fileChangeHandler_reindex event w) as (Hf & Hc & Hu);
        [left; exact Hty | fold rmdFile; eauto |].
      split; [exact Hu|]. split; [exact Hc|]. intros p Hp.
      unfold reindexed in Hf. rewrite Hf. apply lookup_insert_ne. intros Heq. apply Hp. symmetry. exact Heq.
    + rewrite (fileChangeHandler_noop event w); [auto|].
      right. split; [congruence | exact Hrmd].
Qed.

(** X2. Whatever the event, the handler changes at most one file, the
    persisted index of the event's document: every other file, the clock
    and the overlay are as before. *)
Theorem fileChangeHandler_touches_only_the_index_file (event : FileChangeEvent) (w : World) :
  let idxFile := xrefIndexPath (bookRelativePath (absolutePath (fileInfo event))) in
  let w' := snd (fileChangeHandler event w) in
  unsavedFiles_ w' = unsavedFiles_ w
  /\ clock w' = clock w
  /\ forall p, p <> idxFile -> files w' !! p = files w !! p.
Proof. exact (fileChangeHandler_frame event w). Qed.


(** X4. After a Remove event the Index Store has nothing for the document:
    a project-scope query gets no entries for it unless the overlay still
    holds the document. *)
Theorem removed_document_has_no_store_entries (event : FileChangeEvent) (w : World) :
  let d := bookRelativePath (absolutePath (fileInfo event)) in
  let w' := snd (fileChangeHandler event w) in
  type event = FileRemoved ->
  storeEntries w' d = []
  /\ (unsavedFiles_ w !! d = None -> overlayOrStore w' d = []).
Proof.
  intros d w' Hty. subst w'. rewrite (fileChangeHandler_remove event w Hty).
  fold d. unfold overlayOrStore, storeEntries. cbn [snd files unsavedFiles_].
  rewrite bool_decide_eq_false_2
    by (rewrite lookup_delete_eq; intros [? ?]; discriminate).
  split; [reflexivity|]. intros ->. reflexivity.
Qed.

End monitor_frame.

Lemma add_reindexes_unless_index_strictly_newer_witness :
  let event := mkFileChangeEvent FileAdded (mkFileInfo "/book/intro.Rmd") in
  fst (fs.getLastWriteTime "/scratch/bookdown-xrefs/intro.Rmd.xref" saved_again)
  <= fst (fs.getLastWriteTime "/book/intro.Rmd" saved_again)
  /\ reindexed "/book/intro.Rmd" saved_again (snd (fileChangeHandler event saved_again)).
Proof.
  intros event.
  assert (Hle : fst (fs.getLastWriteTime "/scratch/bookdown-xrefs/intro.Rmd.xref" saved_again)
                <= fst (fs.getLastWriteTime "/book/intro.Rmd" saved_again))
    by (vm_compute; discriminate).
  split; [exact Hle|].
  apply (add_reindexes_unless_index_strictly_newer event saved_again).
  - reflexivity.
  - vm_compute. eauto.
  - right. exact Hle.
Defined.

Lemma fileChangeHandler_touches_only_the_index_file_witness :
  let event := mkFileChangeEvent FileModified (mkFileInfo "/book/ch1.Rmd") in
  "/book/ch1.Rmd" <> "/scratch/bookdown-xrefs/ch1.Rmd.xref"
  /\ files (snd (fileChangeHandler event Demo.world)) !! "/book/ch1.Rmd"
     = files Demo.world !! "/book/ch1.Rmd".
Proof.
  intros event.
  assert (Hne : "/book/ch1.Rmd" <> "/scratch/bookdown-xrefs/ch1.Rmd.xref") by discriminate.
  split; [exact Hne|].
  exact (proj2 (proj2 (fileChangeHandler_touches_only_the_index_file event Demo.world))
           "/book/ch1.Rmd" Hne).
Defined.


Lemma removed_document_has_no_store_entries_witness :
  let event := mkFileChangeEvent FileRemoved (mkFileInfo "/book/intro.Rmd") in
  storeEntries Demo.world "intro.Rmd" = ["ch:intro Introduction"]
  /\ storeEntries (snd (fileChangeHandler event Demo.world)) "intro.Rmd" = []
  /\ overlayOrStore (snd (fileChangeHandler event Demo.world)) "intro.Rmd" = [].
Proof.
  intros event. split; [vm_compute; reflexivity|].
  destruct (removed_document_has_no_store_entries event Demo.world eq_refl) as [Hs Ho].
  split; [exact Hs|]. apply Ho. vm_compute. reflexivity.
Defined.

(** ** More on the renderer adapter *)

Lemma split_not_nil (isSep : ascii -> bool) (s : string) : str.split isSep s <> [].
Proof.
  destruct s as [|a s]; simpl; [discriminate|].
  destruct (isSep a); [discriminate|]. destruct (str.split isSep s); discriminate.
Qed.

Lemma concat_split_newline (s : string) :
  String.concat (String str.newline EmptyString) (str.split str.is_newline s) = s.
Proof.
  induction s as [|a s IH]; [reflexivity|].
  cbn [str.split]. destruct (str.is_newline a) eqn:Ha.
  - apply Ascii.eqb_eq in Ha. subst a.
    pose proof (split_not_nil str.is_newline s) as Hnil.
    destruct (str.split str.is_newline s) as [|tok toks]; [contradiction|].
    cbn [String.concat] in *. rewrite IH. reflexivity.
  - pose proof (split_not_nil str.is_newline s) as Hnil.
    destruct (str.split str.is_newline s) as [|tok toks]; [contradiction|].
    destruct toks as [|tok' toks]; rewrite <- IH; reflexivity.
Qed.

Lemma length_split_newline (s : string) :
  length (str.split str.is_newline s) = S (count_newlines s).
Proof.
  induction s as [|a s IH]; [reflexivity|].
  cbn [str.split count_newlines]. destruct (str.is_newline a).
  - simpl. rewrite IH. reflexivity.
  - pose proof (split_not_nil str.is_newline s) as Hnil.
    destruct (str.split str.is_newline s) as [|tok toks]; [contradiction|].
    simpl in *. exact IH.
Qed.

Section adapter_more.

Context `{Platform}.

(** X5. When the renderer runs and exits with status 0, nothing is logged and
    the entries are its standard output cut at every newline: joined by
    newlines they give the output back character for character, and there
    is one entry more than there are newlines, so an output that ends in a
    newline gives a last entry that is empty. *)
Theorem indexForDoc_success_splits_output (file contents : string) (w : World) :
  let r := runPandoc pandocArgs contents in
  isError (fst r) = false ->
  exitStatus (snd r) = EXIT_SUCCESS ->
  let idx := fst (indexForDoc file contents w) in
  snd (indexForDoc file contents w) = w
  /\ index_file idx = file
  /\ String.concat (String str.newline EmptyString) (entries idx) = stdOut (snd r)
  /\ length (entries idx) = S (count_newlines (stdOut (snd r))).
Proof.
  unfold indexForDoc, pandocArgs. simpl.
  destruct (runPandoc _ contents) as [error result]. simpl.
  intros -> ->. simpl.
  split; [reflexivity|]. split; [reflexivity|]. split.
  - apply concat_split_newline.
  - apply length_split_newline.
Qed.

(** X6. The adapter never writes: the disk, the clock and the overlay are the
    same after it, and the log has grown by one line at most. *)
Theorem indexForDoc_only_logs (file contents : string) (w : World) :
  same_store w (snd (indexForDoc file contents w))
  /\ logged_at_most_once w (snd (indexForDoc file contents w)).
Proof.
  split; [apply indexForDoc_same_store|].
  unfold indexForDoc, logged_at_most_once.
  destruct (runPandoc _ contents) as [error result].
  destruct (isError error); [right; eexists; reflexivity|].
  destruct (negb _); [right; eexists; reflexivity | left; reflexivity].
Qed.

End adapter_more.

Lemma indexForDoc_success_splits_output_witness :
  let out := Demo.line "fig:one Plot" +:+ Demo.line "tab:two Table" in
  isError (fst (runPandoc pandocArgs out)) = false
  /\ entries (fst (indexForDoc "ch1.Rmd" out Demo.world))
     = ["fig:one Plot"; "tab:two Table"; EmptyString]
  /\ String.concat (String str.newline EmptyString)
       (entries (fst (indexForDoc "ch1.Rmd" out Demo.world))) = out.
Proof.
  intros out.
  assert (Hok : isError (fst (runPandoc pandocArgs out)) = false) by reflexivity.
  split; [exact Hok|]. split; [vm_compute; reflexivity|].
  exact (proj1 (proj2 (proj2
    (indexForDoc_success_splits_output "ch1.Rmd" out Demo.world Hok eq_refl)))).
Defined.

(** ** More on the overlay and the source database events *)

Section overlay_more.

Context `{Platform}.

Lemma storeEntries_same_files (w w' : World) (d : string) :
  files w' = files w -> storeEntries w' d = storeEntries w d.
Proof.
  intros Hf. unfold storeEntries, fs.readStringVectorFromFile. run. rewrite Hf.
  destruct (files w !! xrefIndexPath d); reflexivity.
Qed.

Lemma updateUnsaved_same_disk fileInfo contents dirty w :
  files (snd (updateUnsaved fileInfo contents dirty w)) = files w
  /\ clock (snd (updateUnsaved fileInfo contents dirty w)) = clock w.
Proof.
  unfold updateUnsaved. rewrite bind_run. destruct dirty; [|auto].
  rewrite bind_run. unfold indexForDoc_in.
  set (w1 := snd (removeUnsaved fileInfo w)).
  destruct (indexForDoc_same_store (bookRelativePath (toFilePath fileInfo)) contents w1)
    as (Hf & Hc & _).
  rewrite bind_run. unfold gets, set_unsaved. cbn [fst snd files clock].
  rewrite Hf, Hc. auto.
Qed.

Lemma updateUnsaved_keyed fileInfo contents dirty w :
  overlay_keyed w -> overlay_keyed (snd (updateUnsaved fileInfo contents dirty w)).
Proof.
  intros Hk. destruct dirty.
  - intros k idx. rewrite updateUnsaved_dirty_unsaved.
    destruct (decide (bookRelativePath (toFilePath fileInfo) = k)) as [<- | Hne].
    + rewrite lookup_insert_eq. intros [= <-]. apply indexForDoc_file.
    + rewrite lookup_insert_ne by exact Hne. apply Hk.
  - intros k idx. unfold updateUnsaved. rewrite bind_run. unfold ret. cbn [snd].
    rewrite removeUnsaved_unsaved. intros Hl.
    apply lookup_delete_Some in Hl as [_ Hl]. exact (Hk k idx Hl).
Qed.

Lemma removeUnsaved_keyed fileInfo w :
  overlay_keyed w -> overlay_keyed (snd (removeUnsaved fileInfo w)).
Proof.
  intros Hk k idx. rewrite removeUnsaved_unsaved. intros Hl.
  apply lookup_delete_Some in Hl as [_ Hl]. exact (Hk k idx Hl).
Qed.

(** X7. The overlay keeps every File Index under the path the index names:
    none of the operations on the overlay, none of the source database
    callbacks and no file-change event breaks this. *)
Theorem overlay_stays_keyed (w : World) :
  overlay_keyed w ->
  (forall fileInfo contents dirty,
      overlay_keyed (snd (updateUnsaved fileInfo contents dirty w)))
  /\ (forall fileInfo, overlay_keyed (snd (removeUnsaved fileInfo w)))
  /\ overlay_keyed (snd (removeAllUnsaved w))
  /\ (forall pDoc, overlay_keyed (snd (onSourceDocUpdated pDoc w)))
  /\ (forall id path, overlay_keyed (snd (onSourceDocRemoved id path w)))
  /\ (forall event, overlay_keyed (snd (fileChangeHandler event w))).
Proof.
  intros Hk. repeat split.
  - intros. apply updateUnsaved_keyed, Hk.
  - intros. apply removeUnsaved_keyed, Hk.
  - intros k idx. unfold removeAllUnsaved, set_unsaved. cbn [snd unsavedFiles_].
    rewrite lookup_empty. discriminate.
  - intros pDoc. unfold onSourceDocUpdated.
    destruct (String.eqb (doc_path pDoc) EmptyString); [exact Hk|].
    destruct (isBookdownRmd _); [apply updateUnsaved_keyed, Hk | exact Hk].
  - intros id path. unfold onSourceDocRemoved.
    destruct (String.eqb path EmptyString); [exact Hk|].
    destruct (isBookdownRmd _); [apply removeUnsaved_keyed, Hk | exact Hk].
  - intros event k idx.
    rewrite (proj1 (fileChangeHandler_frame event w)). apply Hk.
Qed.

(** X8. A source document without a path, or one that is not an Rmd file of
    the book, never reaches the overlay: both callbacks return with the
    world as it was, and the renderer is not run. *)
Theorem document_outside_the_book_is_ignored (pDoc : SourceDocument) (id : string) (w : World) :
  doc_path pDoc = EmptyString
  \/ isBookdownRmd (mkFileInfo (resolveAliasedPath (doc_path pDoc))) = false ->
  onSourceDocUpdated pDoc w = (tt, w)
  /\ onSourceDocRemoved id (doc_path pDoc) w = (tt, w).
Proof.
  unfold onSourceDocUpdated, onSourceDocRemoved.
  intros [-> | Hout]; [split; reflexivity|].
  rewrite Hout. destruct (String.eqb (doc_path pDoc) EmptyString); split; reflexivity.
Qed.

(** X9. Once a book document is reported dirty, a project-scope query takes
    its entries from the editor: what the renderer gives for the reported
    contents, whatever the overlay or the Index Store held before. *)
Theorem dirty_document_is_served_from_the_editor (pDoc : SourceDocument) (w : World) :
  let fileInfo := mkFileInfo (resolveAliasedPath (doc_path pDoc)) in
  let path := bookRelativePath (toFilePath fileInfo) in
  doc_path pDoc <> EmptyString ->
  isBookdownRmd fileInfo = true ->
  doc_dirty pDoc = true ->
  overlayOrStore (snd (onSourceDocUpdated pDoc w)) path
  = entries (fst (indexForDoc path (doc_contents pDoc) w)).
Proof.
  intros fileInfo path Hpath Hbook Hdirty. unfold onSourceDocUpdated.
  destruct (String.eqb_spec (doc_path pDoc) EmptyString) as [Heq | _]; [contradiction|].
  fold fileInfo. rewrite Hbook, Hdirty. unfold overlayOrStore.
  rewrite updateUnsaved_dirty_unsaved. fold path. rewrite lookup_insert_eq. reflexivity.
Qed.

(** X10. Once a book document is reported clean, or is closed, a project-scope
    query takes its entries from the Index Store again. *)
Theorem clean_or_closed_document_is_served_from_the_store
    (pDoc : SourceDocument) (id : string) (w : World) :
  let fileInfo := mkFileInfo (resolveAliasedPath (doc_path pDoc)) in
  let path := bookRelativePath (toFilePath fileInfo) in
  doc_path pDoc <> EmptyString ->
  isBookdownRmd fileInfo = true ->
  (doc_dirty pDoc = false ->
   overlayOrStore (snd (onSourceDocUpdated pDoc w)) path = storeEntries w path)
  /\ overlayOrStore (snd (onSourceDocRemoved id (doc_path pDoc) w)) path
     = storeEntries w path.
Proof.
  intros fileInfo path Hpath Hbook.
  assert (Hremove : overlayOrStore (snd (removeUnsaved fileInfo w)) path = storeEntries w path).
  { unfold overlayOrStore. rewrite removeUnsaved_unsaved. fold path.
    rewrite lookup_delete_eq. apply storeEntries_same_files. reflexivity. }
  unfold onSourceDocUpdated, onSourceDocRemoved.
  destruct (String.eqb_spec (doc_path pDoc) EmptyString) as [Heq | _]; [contradiction|].
  fold fileInfo. rewrite Hbook. split; [|exact Hremove].
  intros ->. unfold updateUnsaved. rewrite bind_run. exact Hremove.
Qed.

(** X11. When all source documents are closed the overlay is empty: every
    document is served from the Index Store. *)
Theorem closing_all_documents_empties_the_overlay (w : World) (d : string) :
  unsavedFiles_ (snd (onAllSourceDocsRemoved w)) = ∅
  /\ files (snd (onAllSourceDocsRemoved w)) = files w
  /\ overlayOrStore (snd (onAllSourceDocsRemoved w)) d = storeEntries w d.
Proof.
  unfold onAllSourceDocsRemoved, removeAllUnsaved, set_unsaved, overlayOrStore.
  cbn [snd unsavedFiles_ files]. rewrite lookup_empty.
  split; [reflexivity|]. split; [reflexivity|].
  apply storeEntries_same_files. reflexivity.
Qed.

(** X12. The source database callbacks work on the overlay only: no file on
    disk and no time stamp changes, whatever the document. *)
Theorem source_document_events_leave_the_disk_alone
    (pDoc : SourceDocument) (id path : string) (w : World) :
  files (snd (onSourceDocUpdated pDoc w)) = files w
  /\ files (snd (onSourceDocRemoved id path w)) = files w
  /\ files (snd (onAllSourceDocsRemoved w)) = files w.
Proof.
  unfold onSourceDocUpdated, onSourceDocRemoved. repeat split.
  - destruct (String.eqb (doc_path pDoc) EmptyString); [reflexivity|].
    destruct (isBookdownRmd _); [apply updateUnsaved_same_disk | reflexivity].
  - destruct (String.eqb path EmptyString); [reflexivity|].
    destruct (isBookdownRmd _); reflexivity.
Qed.

End overlay_more.

Lemma demo_world_keyed : overlay_keyed Demo.world.
Proof.
  intros k idx Hl. unfold Demo.world in Hl. cbn [unsavedFiles_] in Hl.
  apply lookup_singleton_Some in Hl as [<- <-]. reflexivity.
Qed.

Lemma overlay_stays_keyed_witness :
  overlay_keyed Demo.world
  /\ overlay_keyed (snd (updateUnsaved (mkFileInfo "/book/intro.Rmd") "sec:a A" true Demo.world))
  /\ overlay_keyed (snd (fileChangeHandler
                           (mkFileChangeEvent FileModified (mkFileInfo "/book/ch1.Rmd"))
                           Demo.world)).
Proof.
  split; [exact demo_world_keyed|].
  destruct (overlay_stays_keyed Demo.world demo_world_keyed)
    as (Hupdate & _ & _ & _ & _ & Hevent).
  split; [apply Hupdate | apply Hevent].
Defined.

Lemma document_outside_the_book_is_ignored_witness :
  isBookdownRmd (mkFileInfo (resolveAliasedPath (doc_path Demo.doc1))) = false
  /\ onSourceDocUpdated Demo.doc1 Demo.world = (tt, Demo.world)
  /\ onSourceDocRemoved "D1" (doc_path Demo.doc1) Demo.world = (tt, Demo.world).
Proof.
  assert (Hout : isBookdownRmd (mkFileInfo (resolveAliasedPath (doc_path Demo.doc1))) = false)
    by (vm_compute; reflexivity).
  split; [exact Hout|].
  apply (document_outside_the_book_is_ignored Demo.doc1 "D1" Demo.world).
  right. exact Hout.
Defined.

Lemma dirty_document_is_served_from_the_editor_witness :
  let pDoc := mkSourceDocument "/book/intro.Rmd" "ch:intro A new title" true in
  isBookdownRmd (mkFileInfo "/book/intro.Rmd") = true
  /\ overlayOrStore Demo.world "intro.Rmd" = ["ch:intro Introduction"]
  /\ overlayOrStore (snd (onSourceDocUpdated pDoc Demo.world)) "intro.Rmd"
     = ["ch:intro A new title"].
Proof.
  intros pDoc.
  assert (Hbook : isBookdownRmd (mkFileInfo "/book/intro.Rmd") = true)
    by (vm_compute; reflexivity).
  split; [exact Hbook|]. split; [vm_compute; reflexivity|].
  assert (Hpath : doc_path pDoc <> EmptyString) by (simpl; discriminate).
  exact (dirty_document_is_served_from_the_editor pDoc Demo.world Hpath Hbook eq_refl).
Defined.

Lemma clean_or_closed_document_is_served_from_the_store_witness :
  let pDoc := mkSourceDocument "/book/ch1.Rmd" "fig:one Plot One" false in
  isBookdownRmd (mkFileInfo "/book/ch1.Rmd") = true
  /\ overlayOrStore Demo.world "ch1.Rmd" = ["fig:one Plot One"]
  /\ overlayOrStore (snd (onSourceDocUpdated pDoc Demo.world)) "ch1.Rmd" = ["fig:one Old Plot"]
  /\ overlayOrStore (snd (onSourceDocRemoved "D2" "/book/ch1.Rmd" Demo.world)) "ch1.Rmd"
     = ["fig:one Old Plot"].
Proof.
  intros pDoc.
  assert (Hbook : isBookdownRmd (mkFileInfo "/book/ch1.Rmd") = true)
    by (vm_compute; reflexivity).
  assert (Hpath : doc_path pDoc <> EmptyString) by (simpl; discriminate).
  split; [exact Hbook|]. split; [vm_compute; reflexivity|].
  destruct (clean_or_closed_document_is_served_from_the_store pDoc "D2" Demo.world Hpath Hbook)
    as [Hclean Hclosed].
  split; [exact (Hclean eq_refl) | exact Hclosed].
Defined.

(** ** More on the queries *)

Section queries_more.

Context `{Platform}.

Lemma indexEntriesForProject_run (w : World) :
  fst (indexEntriesForProject w)
  = flat_map (fun d => map (mkXRefIndexEntry d) (overlayOrStore w d)) projectDocuments
  /\ same_store w (snd (indexEntriesForProject w)).
Proof.
  unfold indexEntriesForProject. rewrite bind_run.
  destruct (bookdownSourceFiles_run w) as [Hdocs Hsame]. rewrite Hdocs.
  rewrite project_loop_run. cbn [fst snd]. split; [|exact Hsame].
  apply flat_map_ext. intros d.
  rewrite (overlayOrStore_same_store w _ d Hsame). reflexivity.
Qed.


(** X14. The entries of a single document keep their order and number, each
    paired with the file of the index. *)
Theorem indexEntriesForFile_pairs_every_entry (fileIndex : XRefFileIndex) :
  indexEntriesForFile fileIndex
  = map (mkXRefIndexEntry (index_file fileIndex)) (entries fileIndex)
  /\ map entry (indexEntriesForFile fileIndex) = entries fileIndex.
Proof.
  unfold indexEntriesForFile. rewrite push_entries_app. cbn [app].
  split; [reflexivity|]. rewrite map_map. cbn [entry]. apply map_id.
Qed.



(** X16. In single-document mode the answer comes from the source database and
    the renderer alone: it is the same in any two worlds, so neither the
    overlay nor the Index Store has a part in it. *)
Theorem single_document_query_bypasses_overlay_and_store
    (request : JsonRpcRequest) (pResponse : JsonRpcResponse) (w w' : World) (file : string) :
  readParams (params request) = (Success, file) ->
  isBookdownContext && isWithin (resolveAliasedPath file) buildTargetPath = false ->
  fst (xrefIndexForFile request pResponse w) = fst (xrefIndexForFile request pResponse w').
Proof.
  unfold xrefIndexForFile. intros -> Hmode. simpl. rewrite Hmode.
  destruct (source_database_getId (resolveAliasedPath file)) as [e id].
  destruct (negb (String.eqb id EmptyString)); [|reflexivity].
  destruct (source_database_get id) as [error pDoc].
  destruct (isError error); [reflexivity|].
  rewrite !bind_run. cbn [fst].
  rewrite (indexForDoc_fst _ _ w w'). reflexivity.
Qed.

(** X17. In project mode the answer is the index of the whole book: it is the
    same for any two documents of the book, and the source database has
    no part in it. *)
Theorem project_query_is_the_same_for_every_document_of_the_book
    (request request' : JsonRpcRequest) (pResponse : JsonRpcResponse) (w : World)
    (file file' : string) :
  readParams (params request) = (Success, file) ->
  readParams (params request') = (Success, file') ->
  isBookdownContext && isWithin (resolveAliasedPath file) buildTargetPath = true ->
  isBookdownContext && isWithin (resolveAliasedPath file') buildTargetPath = true ->
  xrefIndexForFile request pResponse w = xrefIndexForFile request' pResponse w
  /\ fst (xrefIndexForFile request pResponse w)
     = (Success,
        mkResponse (Some (json.Arr (indexEntriesToXRefs
          (flat_map (fun d => map (mkXRefIndexEntry d) (overlayOrStore w d))
             projectDocuments))))).
Proof.
  unfold xrefIndexForFile. intros -> -> Hmode Hmode'. simpl.
  rewrite Hmode, Hmode'. split; [reflexivity|].
  rewrite bind_run. cbn [fst]. rewrite (proj1 (indexEntriesForProject_run w)).
  reflexivity.
Qed.

End queries_more.


Lemma single_document_query_bypasses_overlay_and_store_witness :
  let request := mkRequest [json.Str "/home/u/notes/sub/doc.Rmd"] in
  fst (xrefIndexForFile request (mkResponse None) Demo.world)
  = fst (xrefIndexForFile request (mkResponse None) saved_again).
Proof.
  intros request.
  apply (single_document_query_bypasses_overlay_and_store request (mkResponse None)
           Demo.world saved_again "/home/u/notes/sub/doc.Rmd").
  - reflexivity.
  - vm_compute. reflexivity.
Defined.

Lemma project_query_is_the_same_for_every_document_of_the_book_witness :
  let request := mkRequest [json.Str "/book/intro.Rmd"] in
  let request' := mkRequest [json.Str "/book/ch1.Rmd"] in
  xrefIndexForFile request (mkResponse None) Demo.world
  = xrefIndexForFile request' (mkResponse None) Demo.world
  /\ fst (xrefIndexForFile request (mkResponse None) Demo.world)
     = (Success,
        mkResponse (Some (json.Arr [xref "intro.Rmd" "ch" "intro" "Introduction";
                                    xref "ch1.Rmd" "fig" "one" "Plot One"]))).
Proof.
  intros request request'.
  destruct (project_query_is_the_same_for_every_document_of_the_book
              request request' (mkResponse None) Demo.world
              "/book/intro.Rmd" "/book/ch1.Rmd" eq_refl eq_refl)
    as [Hsame Hrun]; [vm_compute; reflexivity | vm_compute; reflexivity |].
  split; [exact Hsame|]. rewrite Hrun. vm_compute. reflexivity.
Defined.

(** ** The text-reference pattern *)

Lemma prefix_length (s : string) : str.prefix (String.length s) s = s.
Proof. induction s as [|a s IH]; simpl; [reflexivity | rewrite IH; reflexivity]. Qed.

Lemma prefix_app (t r : string) (n : nat) :
  str.prefix (String.length t + n) (t +:+ r) = t +:+ str.prefix n r.
Proof. induction t as [|a t IH]; simpl; [reflexivity | rewrite IH; reflexivity]. Qed.

Lemma all_chars_any (s : string) : all_chars regex.any s = true.
Proof. induction s as [|a s IH]; simpl; [reflexivity | exact IH]. Qed.

Lemma all_chars_app (cls : ascii -> bool) (s t : string) :
  all_chars cls (s +:+ t) = all_chars cls s && all_chars cls t.
Proof.
  induction s as [|a s IH]; simpl; [reflexivity|].
  rewrite IH, andb_assoc. reflexivity.
Qed.

Lemma drop_while_head (cls : ascii -> bool) (s : string) (a : ascii) (s' : string) :
  drop_while cls s = String a s' -> cls a = false.
Proof.
  induction s as [|b s IH]; simpl; [discriminate|].
  destruct (cls b) eqn:Hb; [exact IH|]. intros [= <- _]. exact Hb.
Qed.

(** Greedy repetition succeeds only by handing some split of the text to
    the rest of the pattern. *)
Lemma greedy_sound (cls : ascii -> bool) (k : regex.cont) (caps m : regex.captures)
    (s : string) (prev : option ascii) (pos : nat) :
  regex.greedy cls prev pos s caps k = Some m ->
  exists taken rest prev',
    s = taken +:+ rest /\ all_chars cls taken = true
    /\ k prev' (pos + String.length taken)%nat rest caps = Some m.
Proof.
  revert prev pos. induction s as [|a s IH]; intros prev pos; cbn [regex.greedy].
  - intros Hk. exists EmptyString, EmptyString, prev.
    rewrite Nat.add_0_r. auto.
  - assert (Hstop : k prev pos (String a s) caps = Some m ->
                    exists taken rest prev',
                      String a s = taken +:+ rest /\ all_chars cls taken = true
                      /\ k prev' (pos + String.length taken)%nat rest caps = Some m).
    { intros Hk. exists EmptyString, (String a s), prev. rewrite Nat.add_0_r. auto. }
    destruct (cls a) eqn:Ha; [|exact Hstop].
    destruct (regex.greedy cls (Some a) (S pos) s caps k) as [m'|] eqn:Hmore; [|exact Hstop].
    intros [= ->]. destruct (IH _ _ Hmore) as (taken & rest & prev' & -> & Hall & Hk).
    exists (String a taken), rest, prev'. cbn [all_chars String.length append].
    rewrite Ha, Hall, Nat.add_succ_r. auto.
Qed.

(** It succeeds as soon as the rest of the pattern accepts some split. *)
Lemma greedy_complete (cls : ascii -> bool) (k : regex.cont) (caps : regex.captures)
    (taken rest : string) (prev : option ascii) (pos : nat) :
  all_chars cls taken = true ->
  (forall prev', is_Some (k prev' (pos + String.length taken)%nat rest caps)) ->
  is_Some (regex.greedy cls prev pos (taken +:+ rest) caps k).
Proof.
  revert prev pos. induction taken as [|a taken IH]; intros prev pos Hall Hk.
  - change (EmptyString +:+ rest) with rest.
    cbn [String.length] in Hk. rewrite Nat.add_0_r in Hk.
    destruct rest as [|b rest]; cbn [regex.greedy]; [apply Hk|].
    destruct (cls b); [|apply Hk].
    destruct (regex.greedy cls (Some b) (S pos) rest caps k); [eauto | apply Hk].
  - change (String a taken +:+ rest) with (String a (taken +:+ rest)).
    cbn [all_chars String.length regex.greedy] in *.
    apply andb_true_iff in Hall as [Ha Hall]. rewrite Ha.
    destruct (IH (Some a) (S pos) Hall) as [m Hm].
    + intros prev'. rewrite Nat.add_succ_r in Hk. apply Hk.
    + rewrite Hm. eauto.
Qed.

(** With a rest that accepts anything, it takes all it can. *)
Lemma greedy_total (cls : ascii -> bool) (k : regex.cont) (caps : regex.captures)
    (f : string -> regex.captures) (s : string) (prev : option ascii) (pos : nat) :
  (forall p q r, k p q r caps = Some (f r)) ->
  regex.greedy cls prev pos s caps k = Some (f (drop_while cls s)).
Proof.
  intros Hk. revert prev pos. induction s as [|a s IH]; intros prev pos;
    cbn [regex.greedy drop_while]; [apply Hk|].
  destruct (cls a); [|apply Hk]. rewrite IH. reflexivity.
Qed.

(** The last group and the end of the text: [( . * ) $] takes everything. *)
Lemma exec_tail (prev : option ascii) (pos : nat) (s : string) (caps : regex.captures) :
  regex.exec (regex.Cat (regex.Grp 2 (regex.Star regex.any)) regex.Eol)
    prev pos s caps regex.accept
  = Some (<[2%nat := s]> caps).
Proof.
  cbn [regex.exec].
  assert (Hfull : forall (t : string) (p : option ascii) (q : nat),
    regex.greedy regex.any p q t caps
      (fun prev' pos' s' caps' =>
         if regex.at_line_end prev' s'
         then regex.accept prev' pos' s' (<[2%nat := str.prefix (pos' - pos) s]> caps')
         else None)
    = Some (<[2%nat := str.prefix (q + String.length t - pos) s]> caps)).
  { induction t as [|a t IH]; intros p q; cbn [regex.greedy String.length].
    - rewrite Nat.add_0_r. reflexivity.
    - cbn [regex.any]. rewrite IH, Nat.add_succ_r. reflexivity. }
  rewrite Hfull. replace (pos + String.length s - pos)%nat with (String.length s) by lia.
  rewrite prefix_length. reflexivity.
Qed.

(** White space, then the last group: [\s + ( . * ) $]. *)
Lemma exec_spaces_tail (prev : option ascii) (pos : nat) (s : string) (caps : regex.captures) :
  regex.exec
    (regex.Cat (regex.Plus regex.space)
       (regex.Cat (regex.Grp 2 (regex.Star regex.any)) regex.Eol))
    prev pos s caps regex.accept
  = match s with
    | String a s' =>
        if regex.space a then Some (<[2%nat := drop_while regex.space s']> caps) else None
    | EmptyString => None
    end.
Proof.
  change (regex.exec (regex.Cat (regex.Plus regex.space)
            (regex.Cat (regex.Grp 2 (regex.Star regex.any)) regex.Eol))
            prev pos s caps regex.accept)
    with (match s with
          | String a s' =>
              if regex.space a
              then regex.greedy regex.space (Some a) (S pos) s' caps
                     (fun p q r c =>
                        regex.exec (regex.Cat (regex.Grp 2 (regex.Star regex.any)) regex.Eol)
                          p q r c regex.accept)
              else None
          | EmptyString => None
          end).
  destruct s as [|a s']; [reflexivity|]. destruct (regex.space a); [|reflexivity].
  apply (greedy_total regex.space _ caps (fun r => <[2%nat := r]> caps)).
  intros p q r. apply exec_tail.
Qed.

(** The whole pattern at one start position. *)
Lemma exec_textRefRe_unfold (prev : option ascii) (pos : nat) (s : string) :
  regex.exec textRefRe prev pos s ∅ regex.accept
  = if regex.at_line_start prev s then
      match s with
      | String c s1 =>
          if Ascii.eqb c "(" then
            regex.greedy regex.any (Some c) (S pos) s1 ∅
              (fun p q r caps =>
                 match r with
                 | String b r' =>
                     if Ascii.eqb b ")" then
                       regex.exec
                         (regex.Cat (regex.Plus regex.space)
                            (regex.Cat (regex.Grp 2 (regex.Star regex.any)) regex.Eol))
                         (Some b) (S q) r' (<[1%nat := str.prefix (S q - pos) s]> caps)
                         regex.accept
                     else None
                 | EmptyString => None
                 end)
          else None
      | EmptyString => None
      end
    else None.
Proof. reflexivity. Qed.

Lemma exec_textRefRe_sound (prev : option ascii) (pos : nat) (s : string)
    (m : regex.captures) :
  regex.exec textRefRe prev pos s ∅ regex.accept = Some m ->
  regex.at_line_start prev s = true
  /\ exists mid a rest,
       s = textRefText mid a rest /\ regex.space a = true
       /\ m = <[2%nat := drop_while regex.space rest]>
                (<[1%nat := String "(" (mid +:+ String ")" EmptyString)]> ∅).
Proof.
  rewrite exec_textRefRe_unfold.
  destruct (regex.at_line_start prev s); [|discriminate].
  destruct s as [|c s1]; [discriminate|].
  destruct (Ascii.eqb_spec c "(") as [-> | _]; [|discriminate].
  intros Hg. split; [reflexivity|].
  apply greedy_sound in Hg as (taken & rest & prev' & -> & _ & Hk).
  destruct rest as [|b r']; [discriminate|].
  destruct (Ascii.eqb_spec b ")") as [-> | _]; [|discriminate].
  rewrite exec_spaces_tail in Hk.
  destruct r' as [|a rest]; [discriminate|].
  destruct (regex.space a) eqn:Ha; [|discriminate].
  injection Hk as <-. exists taken, a, rest.
  split; [reflexivity|]. split; [exact Ha|].
  replace (S (S (pos + String.length taken)) - pos)%nat
    with (S (String.length taken + 1)) by lia.
  cbn [str.prefix]. rewrite prefix_app. reflexivity.
Qed.

Lemma exec_textRefRe_complete (prev : option ascii) (pos : nat)
    (mid : string) (a : ascii) (rest : string) :
  regex.at_line_start prev (textRefText mid a rest) = true ->
  regex.space a = true ->
  is_Some (regex.exec textRefRe prev pos (textRefText mid a rest) ∅ regex.accept).
Proof.
  intros Hstart Ha. rewrite exec_textRefRe_unfold, Hstart. unfold textRefText.
  rewrite Ascii.eqb_refl.
  apply greedy_complete; [apply all_chars_any|].
  intros prev'. rewrite Ascii.eqb_refl, exec_spaces_tail, Ha. eauto.
Qed.

Lemma search_from_sound (r : regex.re) (s : string) (prev : option ascii) (pos : nat)
    (m : regex.captures) :
  regex.search_from r prev pos s = Some m ->
  exists pre s' prev' pos',
    s = pre +:+ s' /\ regex.exec r prev' pos' s' ∅ regex.accept = Some m
    /\ ((pre = EmptyString /\ prev' = prev)
        \/ exists pre0 c, pre = pre0 +:+ String c EmptyString /\ prev' = Some c).
Proof.
  revert prev pos. induction s as [|a s IH]; intros prev pos; cbn [regex.search_from].
  - destruct (regex.exec r prev pos EmptyString ∅ regex.accept) as [m'|] eqn:He;
      [|discriminate].
    intros [= ->]. exists EmptyString, EmptyString, prev, pos. auto.
  - destruct (regex.exec r prev pos (String a s) ∅ regex.accept) as [m'|] eqn:He.
    + intros [= ->]. exists EmptyString, (String a s), prev, pos. auto.
    + intros Hs. destruct (IH _ _ Hs) as (pre & s' & prev' & pos' & -> & Hx & Hpre).
      exists (String a pre), s', prev', pos'. split; [reflexivity|]. split; [exact Hx|].
      right. destruct Hpre as [[-> ->] | (pre0 & c & -> & ->)].
      * exists EmptyString, a. auto.
      * exists (String a pre0), c. auto.
Qed.

Lemma at_line_start_separator (c : ascii) (s : string) :
  regex.at_line_start (Some c) s = true -> regex.is_separator c = true.
Proof.
  unfold regex.at_line_start. destruct s; [auto|].
  intros Hs. apply andb_true_iff in Hs as [Hs _]. exact Hs.
Qed.

Lemma single_line_match_at_start (pre0 : string) (c : ascii) (s' : string) :
  single_line ((pre0 +:+ String c EmptyString) +:+ s') ->
  regex.at_line_start (Some c) s' = true -> False.
Proof.
  unfold single_line. rewrite !all_chars_app. cbn [all_chars].
  intros Hall Hstart. apply at_line_start_separator in Hstart.
  rewrite Hstart in Hall. cbn [negb andb] in Hall.
  rewrite andb_false_r in Hall. discriminate.
Qed.

Lemma textRefOf_sound (e : XRefIndexEntry) (k v : string) :
  textRefOf e = Some (k, v) ->
  exists pre mid a rest,
    entry e = pre +:+ textRefText mid a rest
    /\ k = String "(" (mid +:+ String ")" EmptyString)
    /\ regex.space a = true
    /\ v = drop_while regex.space rest
    /\ (forall b v', v = String b v' -> regex.space b = false)
    /\ (single_line (entry e) -> pre = EmptyString).
Proof.
  unfold textRefOf, regex.regex_search.
  destruct (regex.search_from textRefRe None 0 (entry e)) as [m|] eqn:Hs; [|discriminate].
  intros [= <- <-].
  apply search_from_sound in Hs as (pre & s' & prev' & pos' & Hentry & Hx & Hpre).
  apply exec_textRefRe_sound in Hx as (Hstart & mid & a & rest & -> & Ha & ->).
  exists pre, mid, a, rest. unfold regex.sub.
  rewrite lookup_insert_ne, !lookup_insert_eq by discriminate. cbn [default].
  repeat split; try assumption; try reflexivity.
  - intros b v' Hv. exact (drop_while_head _ _ _ _ Hv).
  - intros Hline. destruct Hpre as [[-> _] | (pre0 & c & -> & ->)]; [reflexivity|].
    exfalso. rewrite Hentry in Hline.
    exact (single_line_match_at_start _ _ _ Hline Hstart).
Qed.

(** X18. What an indirect entry looks like.  When an entry matches the
    pattern, it is: some text, then the key, which begins with "(" and ends
    with ")", then a white space character, then the rest; the title is the
    rest without its leading white space, so it never begins with white
    space; and in an entry without line separators the key is at the very
    start. *)
Theorem text_reference_shape (e : XRefIndexEntry) (k v : string) :
  textRefOf e = Some (k, v) ->
  exists pre mid a rest,
    entry e = pre +:+ textRefText mid a rest
    /\ k = String "(" (mid +:+ String ")" EmptyString)
    /\ regex.space a = true
    /\ v = drop_while regex.space rest
    /\ (forall b v', v = String b v' -> regex.space b = false)
    /\ (single_line (entry e) -> pre = EmptyString).
Proof. exact (textRefOf_sound e k v). Qed.

(** X19. Which entries are indirect.  An entry without line separators is
    indirect exactly when it is a "(", any text, a ")", one white space
    character and any rest; every other such entry is normal, in
    particular every entry that does not begin with "(". *)
Theorem single_line_entry_is_indirect_iff (e : XRefIndexEntry) :
  single_line (entry e) ->
  (isTextRef e = true
   <-> exists mid a rest, entry e = textRefText mid a rest /\ regex.space a = true).
Proof.
  intros Hline. split.
  - intros Href. destruct (textRefOf e) as [[k v]|] eqn:Hk.
    + apply textRefOf_sound in Hk.
      destruct Hk as (pre & mid & a & rest & Hentry & _ & Ha & _ & _ & Hpre).
      exists mid, a, rest. rewrite Hentry, (Hpre Hline). auto.
    + unfold isTextRef in Href. unfold textRefOf in Hk.
      destruct (regex.regex_search (entry e) textRefRe); discriminate.
  - intros (mid & a & rest & Hentry & Ha). unfold isTextRef, regex.regex_search.
    rewrite Hentry.
    destruct (exec_textRefRe_complete None 0 mid a rest eq_refl Ha) as [m Hm].
    unfold textRefText in *. cbn [regex.search_from]. rewrite Hm. reflexivity.
Qed.

Lemma collectedTextRefs_snoc (es : list XRefIndexEntry) (e : XRefIndexEntry) :
  collectedTextRefs (es ++ [e])
  = match textRefOf e with
    | Some (k, v) => <[k := v]> (collectedTextRefs es)
    | None => collectedTextRefs es
    end.
Proof.
  unfold collectedTextRefs. rewrite omap_app. cbn [omap list_omap].
  destruct (textRefOf e) as [[k v]|].
  - rewrite reverse_app. reflexivity.
  - rewrite app_nil_r. reflexivity.
Qed.

Lemma collectedTextRefs_lookup (es : list XRefIndexEntry) (k v : string) :
  collectedTextRefs es !! k = Some v ->
  exists e, e ∈ es /\ textRefOf e = Some (k, v).
Proof.
  unfold collectedTextRefs. intros Hl.
  apply elem_of_list_to_map_2, elem_of_reverse, list_elem_of_omap in Hl. exact Hl.
Qed.

(** X20. When several indirect entries have the same key, the last one in the
    list gives the title. *)
Theorem last_text_reference_wins (es es' : list XRefIndexEntry) (t : XRefIndexEntry)
    (k v : string) :
  textRefOf t = Some (k, v) ->
  (forall e v', e ∈ es' -> textRefOf e <> Some (k, v')) ->
  collectedTextRefs (es ++ t :: es') !! k = Some v.
Proof.
  intros Ht. induction es' as [|x es' IH] using rev_ind; intros Hlater.
  - rewrite collectedTextRefs_snoc, Ht. apply lookup_insert_eq.
  - replace (es ++ t :: es' ++ [x]) with ((es ++ t :: es') ++ [x])
      by (rewrite <- app_assoc; reflexivity).
    rewrite collectedTextRefs_snoc.
    assert (IH' : collectedTextRefs (es ++ t :: es') !! k = Some v).
    { apply IH. intros e v' He. apply Hlater. apply elem_of_app. left. exact He. }
    destruct (textRefOf x) as [[k' v']|] eqn:Hx; [|exact IH'].
    destruct (decide (k' = k)) as [-> | Hne].
    + exfalso. apply (Hlater x v'); [|exact Hx].
      apply elem_of_app. right. apply list_elem_of_here.
    + rewrite lookup_insert_ne by exact Hne. exact IH'.
Qed.

(** X21. Every key of the map begins with "(" and ends with ")": a literal
    title that does not is no key, whatever the entries are, and the Record
    keeps it unchanged. *)
Theorem title_not_in_parentheses_is_kept (es : list XRefIndexEntry) (title : string) :
  ~ starts_with "(" title \/ ~ ends_with ")" title ->
  collectedTextRefs es !! title = None
  /\ resolvedTitle (collectedTextRefs es) title = title.
Proof.
  intros Hshape.
  assert (Hnone : collectedTextRefs es !! title = None).
  { destruct (collectedTextRefs es !! title) as [v|] eqn:Hl; [|reflexivity].
    exfalso. apply collectedTextRefs_lookup in Hl as (e & _ & He).
    apply textRefOf_sound in He as (pre & mid & a & rest & _ & Hk & _).
    destruct Hshape as [Hs | Hs]; apply Hs; rewrite Hk.
    - exists (mid +:+ String ")" EmptyString). reflexivity.
    - exists (String "(" mid). reflexivity. }
  split; [exact Hnone|]. unfold resolvedTitle. rewrite Hnone. reflexivity.
Qed.

Lemma text_reference_shape_witness :
  let e := mkXRefIndexEntry "a.Rmd" "(ref:cap)   A long caption" in
  textRefOf e = Some ("(ref:cap)", "A long caption")
  /\ exists pre mid a rest,
       entry e = pre +:+ textRefText mid a rest
       /\ "(ref:cap)" = String "(" (mid +:+ String ")" EmptyString)
       /\ regex.space a = true
       /\ "A long caption" = drop_while regex.space rest
       /\ (forall b v', "A long caption" = String b v' -> regex.space b = false)
       /\ (single_line (entry e) -> pre = EmptyString).
Proof.
  intros e.
  assert (Hk : textRefOf e = Some ("(ref:cap)", "A long caption"))
    by (vm_compute; reflexivity).
  split; [exact Hk|]. exact (text_reference_shape e _ _ Hk).
Defined.

Lemma single_line_entry_is_indirect_iff_witness :
  let e := mkXRefIndexEntry "a.Rmd" "(fig1) Custom Title" in
  single_line (entry e)
  /\ isTextRef e = true.
Proof.
  intros e.
  assert (Hline : single_line (entry e)) by (vm_compute; reflexivity).
  split; [exact Hline|].
  apply (proj2 (single_line_entry_is_indirect_iff e Hline)).
  exists "fig1", " "%char, "Custom Title". split; reflexivity.
Defined.

Lemma last_text_reference_wins_witness :
  let t := mkXRefIndexEntry "b.Rmd" "(k) Second" in
  textRefOf t = Some ("(k)", "Second")
  /\ collectedTextRefs ([mkXRefIndexEntry "a.Rmd" "(k) First"] ++
                        t :: [mkXRefIndexEntry "b.Rmd" "fig:a (k)"]) !! "(k)"
     = Some "Second".
Proof.
  intros t.
  assert (Ht : textRefOf t = Some ("(k)", "Second")) by (vm_compute; reflexivity).
  split; [exact Ht|].
  apply (last_text_reference_wins _ _ t "(k)" "Second" Ht).
  intros e v' He. apply list_elem_of_singleton in He. subst e.
  vm_compute. discriminate.
Defined.

Lemma title_not_in_parentheses_is_kept_witness :
  let es := [mkXRefIndexEntry "a.Rmd" "(fig1) Custom Title";
             mkXRefIndexEntry "a.Rmd" "fig:plot fig1"] in
  ~ starts_with "(" "fig1"
  /\ resolvedTitle (collectedTextRefs es) "fig1" = "fig1".
Proof.
  intros es.
  assert (Hs : ~ starts_with "(" "fig1") by (intros [s' Hs']; discriminate Hs').
  split; [exact Hs|].
  exact (proj2 (title_not_in_parentheses_is_kept es "fig1" (or_introl Hs))).
Defined.

(** ** Publishing *)

Lemma append_cons (a : ascii) (s t : string) : String a s +:+ t = String a (s +:+ t).
Proof. reflexivity. Qed.

Lemma append_nil_r (s : string) : s +:+ EmptyString = s.
Proof.
  induction s as [|a s IH]; [reflexivity|]. rewrite append_cons, IH. reflexivity.
Qed.

Lemma append_assoc (s t u : string) : (s +:+ t) +:+ u = s +:+ (t +:+ u).
Proof.
  induction s as [|a s IH]; [reflexivity|]. rewrite !append_cons, IH. reflexivity.
Qed.

Lemma length_append (s t : string) :
  String.length (s +:+ t) = (String.length s + String.length t)%nat.
Proof.
  induction s as [|a s IH]; [reflexivity|].
  rewrite append_cons. cbn [String.length]. rewrite IH. reflexivity.
Qed.

Lemma prefix_suffix (n : nat) (s : string) : str.prefix n s +:+ str.suffix n s = s.
Proof.
  revert n. induction s as [|a s IH]; intros [|n]; try reflexivity.
  cbn [str.prefix str.suffix]. rewrite append_cons, IH. reflexivity.
Qed.

Lemma suffix_app (t r : string) : str.suffix (String.length t) (t +:+ r) = r.
Proof.
  induction t as [|a t IH]; [destruct r; reflexivity|].
  rewrite append_cons. cbn [String.length str.suffix]. exact IH.
Qed.

Section publish_facts.

Context `{Platform} `{RSConnectRuntime}.

Lemma quotedFiles_loop_names (names : list string) (quoted : bool) (n i : nat)
    (joined : string) :
  (i + n)%nat = length names ->
  rsconnect.quotedFiles_loop (json.Str <$> names) quoted n i joined
  = Some (joined +:+
          String.concat (if quoted then ", " else "|")
            (map (fun name =>
                    (if quoted then "'" else EmptyString)
                    +:+ singleQuotedStrEscape (utf8ToSystem name)
                    +:+ (if quoted then "'" else EmptyString))
               (drop i names))).
Proof.
  revert i joined. induction n as [|n IH]; intros i joined Hlen;
    cbn [rsconnect.quotedFiles_loop].
  - rewrite drop_ge by lia. cbn [map String.concat]. rewrite append_nil_r. reflexivity.
  - destruct (lookup_lt_is_Some_2 names i) as [name Hname]; [lia|].
    rewrite list_lookup_fmap, Hname. cbn [fmap option_fmap option_map rsconnect.get_str].
    rewrite IH by lia. rewrite (drop_S _ _ _ Hname), length_fmap. cbn [map].
    destruct n as [|n].
    + rewrite drop_ge by lia.
      replace (i <? length names - 1)%nat with false
        by (symmetry; apply Nat.ltb_ge; lia).
      cbn [map String.concat]. rewrite append_nil_r. reflexivity.
    + destruct (lookup_lt_is_Some_2 names (S i)) as [next Hnext]; [lia|].
      rewrite (drop_S _ _ _ Hnext). cbn [map String.concat].
      replace (i <? length names - 1)%nat with true
        by (symmetry; apply Nat.ltb_lt; lia).
      rewrite !append_assoc. reflexivity.
Qed.

(** X24. File names are joined with the delimiter between them and none at the
    end, each escaped and, when asked for, in single quotes; no names give
    the empty string.  An array with an element that is not a string gives
    no string at all. *)
Theorem quotedFilesFromArray_joins (quoted : bool) :
  (forall names : list string,
      rsconnect.quotedFilesFromArray (json.Str <$> names) quoted
      = Some (String.concat (if quoted then ", " else "|")
                (map (fun name =>
                        (if quoted then "'" else EmptyString)
                        +:+ singleQuotedStrEscape (utf8ToSystem name)
                        +:+ (if quoted then "'" else EmptyString))
                   names)))
  /\ (forall (names : list string) (v : json.Value) (rest : json.Array),
        rsconnect.get_str v = None ->
        rsconnect.quotedFilesFromArray ((json.Str <$> names) ++ v :: rest) quoted = None).
Proof.
  split.
  - intros names. unfold rsconnect.quotedFilesFromArray.
    rewrite length_fmap, (quotedFiles_loop_names names quoted (length names) 0) by lia.
    reflexivity.
  - intros names v rest Hv. unfold rsconnect.quotedFilesFromArray.
    set (array := (json.Str <$> names) ++ v :: rest).
    assert (Hloop : forall n i joined,
              (i <= length names)%nat -> (length names < i + n)%nat ->
              rsconnect.quotedFiles_loop array quoted n i joined = None).
    { induction n as [|n IH]; intros i joined Hi Hn; [lia|].
      cbn [rsconnect.quotedFiles_loop].
      destruct (decide (i = length names)) as [-> | Hne].
      - unfold array. rewrite lookup_app_r by (rewrite length_fmap; lia).
        rewrite length_fmap, Nat.sub_diag. cbn [lookup list_lookup]. rewrite Hv. reflexivity.
      - destruct (lookup_lt_is_Some_2 names i) as [name Hname]; [lia|].
        unfold array at 1. rewrite lookup_app_l by (rewrite length_fmap; lia).
        rewrite list_lookup_fmap, Hname.
        cbn [fmap option_fmap option_map rsconnect.get_str].
        apply IH; lia. }
    apply Hloop; [lia|]. unfold array. rewrite length_app, length_fmap. simpl. lia.
Qed.

End publish_facts.

Lemma marker_test (m line : string) :
  String.eqb (rsconnect.substr line 0 (String.length m)) m = true
  <-> exists url, line = m +:+ url.
Proof.
  unfold rsconnect.substr. change (str.suffix 0 line) with line. split.
  - intros Heq. apply String.eqb_eq in Heq. exists (str.suffix (String.length m) line).
    rewrite <- Heq at 1. symmetry. apply prefix_suffix.
  - intros [url ->]. apply String.eqb_eq.
    rewrite <- (Nat.add_0_r (String.length m)), prefix_app.
    destruct url; apply append_nil_r.
Qed.

Lemma marker_rest (m url : string) :
  rsconnect.substr (m +:+ url) (String.length m)
    (String.length (m +:+ url) - String.length m) = url.
Proof.
  unfold rsconnect.substr. rewrite suffix_app, length_append.
  replace (String.length m + String.length url - String.length m)%nat
    with (String.length url) by lia.
  apply prefix_length.
Qed.

Section publish_callbacks.

Context `{Platform} `{RSConnectRuntime}.

(** The loop over the lines of the output. *)
Lemma marker_loop (lines : list string) (self : rsconnect.RSConnectPublish) :
  let scan :=
    fold_left
      (fun self line =>
         if String.eqb (rsconnect.substr line 0 (String.length rsconnect.kFinishedMarker))
              rsconnect.kFinishedMarker
         then rsconnect.mkRSConnectPublish
                (rsconnect.substr line (String.length rsconnect.kFinishedMarker)
                   (String.length line - String.length rsconnect.kFinishedMarker))
                (rsconnect.sourceFile_ self) (rsconnect.manifestPath_ self)
         else self) in
  rsconnect.sourceFile_ (scan lines self) = rsconnect.sourceFile_ self
  /\ rsconnect.manifestPath_ (scan lines self) = rsconnect.manifestPath_ self
  /\ ((forall line url, line ∈ lines -> ~ rsconnect.announces line url) ->
      scan lines self = self)
  /\ (forall ls line ls' url,
        lines = ls ++ line :: ls' ->
        rsconnect.announces line url ->
        (forall l u, l ∈ ls' -> ~ rsconnect.announces l u) ->
        rsconnect.deployedUrl_ (scan lines self) = url).
Proof.
  intros scan.
  set (step := fun (self : rsconnect.RSConnectPublish) (line : string) =>
         if String.eqb (rsconnect.substr line 0 (String.length rsconnect.kFinishedMarker))
              rsconnect.kFinishedMarker
         then rsconnect.mkRSConnectPublish
                (rsconnect.substr line (String.length rsconnect.kFinishedMarker)
                   (String.length line - String.length rsconnect.kFinishedMarker))
                (rsconnect.sourceFile_ self) (rsconnect.manifestPath_ self)
         else self) in scan.
  assert (Hcons : forall l ls s, scan (l :: ls) s = scan ls (step s l)) by reflexivity.
  assert (Hstep : forall s l,
            rsconnect.sourceFile_ (step s l) = rsconnect.sourceFile_ s
            /\ rsconnect.manifestPath_ (step s l) = rsconnect.manifestPath_ s).
  { intros s l. unfold step. destruct (String.eqb _ _); auto. }
  assert (Hkeep : forall ls s,
            rsconnect.sourceFile_ (scan ls s) = rsconnect.sourceFile_ s
            /\ rsconnect.manifestPath_ (scan ls s) = rsconnect.manifestPath_ s).
  { induction ls as [|l ls IH]; intros s; [auto|]. rewrite Hcons.
    destruct (IH (step s l)) as [-> ->]. apply Hstep. }
  assert (Hnone : forall ls s,
            (forall line url, line ∈ ls -> ~ rsconnect.announces line url) ->
            scan ls s = s).
  { induction ls as [|l ls IH]; intros s Hno; [reflexivity|]. rewrite Hcons.
    assert (Hl : step s l = s).
    { unfold step. destruct (String.eqb _ _) eqn:Heq; [|reflexivity].
      apply marker_test in Heq as [url Hurl].
      exfalso. exact (Hno l url (list_elem_of_here _ _) Hurl). }
    rewrite Hl. apply IH. intros line url Hin. apply Hno.
    apply list_elem_of_further. exact Hin. }
  split; [apply Hkeep|]. split; [apply Hkeep|]. split; [apply Hnone|].
  intros ls line ls' url -> Hann Hlater. unfold scan. rewrite fold_left_app.
  fold scan. rewrite Hcons, Hnone by exact Hlater.
  unfold rsconnect.announces in Hann. subst line. unfold step.
  rewrite (proj2 (marker_test _ _)) by eauto. cbn [rsconnect.deployedUrl_].
  apply marker_rest.
Qed.

(** X25. The deployed URL is read off the output: after [onOutput] it is what
    follows the marker on the last line that begins with the marker, the
    lines being cut at newlines and carriage returns; without such a line
    it is what it was.  The source file and the manifest path of the
    deployment never change. *)
Theorem onOutput_keeps_last_announced_url (type : Z) (output : string)
    (self : rsconnect.RSConnectPublish) (queue : list rsconnect.ClientEvent) :
  let lines := str.split rsconnect.is_newline_or_return output in
  let self' := fst (rsconnect.onOutput type output self queue) in
  rsconnect.sourceFile_ self' = rsconnect.sourceFile_ self
  /\ rsconnect.manifestPath_ self' = rsconnect.manifestPath_ self
  /\ ((forall line url, line ∈ lines -> ~ rsconnect.announces line url) ->
      self' = self)
  /\ (forall ls line ls' url,
        lines = ls ++ line :: ls' ->
        rsconnect.announces line url ->
        (forall l u, l ∈ ls' -> ~ rsconnect.announces l u) ->
        rsconnect.deployedUrl_ self' = url).
Proof.
  exact (marker_loop (str.split rsconnect.is_newline_or_return output) self).
Qed.



End publish_callbacks.

Lemma quotedFilesFromArray_joins_witness :
  rsconnect.quotedFilesFromArray [json.Str "app.R"; json.Str "it's.Rmd"] true
  = Some "'app.R', 'it\'s.Rmd'"
  /\ rsconnect.quotedFilesFromArray [json.Str "app.R"; json.Str "www/style.css"] false
     = Some "app.R|www/style.css"
  /\ rsconnect.get_str json.Null = None
  /\ rsconnect.quotedFilesFromArray [json.Str "app.R"; json.Null; json.Str "b.R"] false = None.
Proof.
  split; [|split; [|split]].
  - rewrite (proj1 (quotedFilesFromArray_joins true) ["app.R"; "it's.Rmd"]).
    vm_compute. reflexivity.
  - rewrite (proj1 (quotedFilesFromArray_joins false) ["app.R"; "www/style.css"]).
    vm_compute. reflexivity.
  - reflexivity.
  - exact (proj2 (quotedFilesFromArray_joins false) ["app.R"] json.Null [json.Str "b.R"]
             eq_refl).
Defined.

Lemma onOutput_keeps_last_announced_url_witness :
  let output := Demo.line "Preparing to deploy application..."
                +:+ Demo.line "Deployment completed: https://example.org/app/" in
  let self := rsconnect.mkRSConnectPublish EmptyString "app.Rmd" "/tmp/manifest" in
  str.split rsconnect.is_newline_or_return output
  = ["Preparing to deploy application..."] ++
    "Deployment completed: https://example.org/app/" :: [EmptyString]
  /\ rsconnect.deployedUrl_ (fst (rsconnect.onOutput 0 output self []))
     = "https://example.org/app/".
Proof.
  intros output self.
  assert (Hlines : str.split rsconnect.is_newline_or_return output
                   = ["Preparing to deploy application..."] ++
                     "Deployment completed: https://example.org/app/" :: [EmptyString])
    by (vm_compute; reflexivity).
  split; [exact Hlines|].
  apply (proj2 (proj2 (proj2 (onOutput_keeps_last_announced_url 0 output self [])))
           _ _ _ "https://example.org/app/" Hlines).
  - reflexivity.
  - intros l u Hl Hann. apply list_elem_of_singleton in Hl. subst l.
    vm_compute in Hann. discriminate Hann.
Defined.



(** ** What every Record has *)

Section records_more.

Context `{Platform}.

Lemma recordOf_members (m : gmap string string) (e : XRefIndexEntry) (v : json.Value) :
  recordOf m e = Some v ->
  exists o ty id,
    v = json.Obj o
    /\ o !! "file" = Some (json.Str (file e))
    /\ o !! "type" = Some (json.Str ty)
    /\ o !! "id" = Some (json.Str id).
Proof.
  intros Hr. destruct (recordOf_file m e v Hr) as (o & -> & Hfile).
  assert (Hsplit : exists token, idSplit token o).
  { unfold recordOf in Hr. destruct (String.eqb (entry e) EmptyString); [discriminate|].
    destruct (str.find_first_of " " (entry e)) as [spacePos|]; injection Hr as <-;
      eexists.
    - apply idSplit_insert_title, writeEntryId_idSplit.
    - apply writeEntryId_idSplit. }
  destruct Hsplit as [token [(ty & id & _ & _ & Hty & Hid) | (_ & Hty & Hid)]];
    eexists o, _, _; eauto.
Qed.

(** X22. Every Record of the transform is an object whose file, type and id
    members are strings, the file being that of a normal entry with text;
    only the title may be missing. *)
Theorem every_record_has_file_type_and_id (es : list XRefIndexEntry) (v : json.Value) :
  v ∈ indexEntriesToXRefs es ->
  exists o e ty id,
    v = json.Obj o
    /\ e ∈ es /\ isNormal e = true /\ entry e <> EmptyString
    /\ o !! "file" = Some (json.Str (file e))
    /\ o !! "type" = Some (json.Str ty)
    /\ o !! "id" = Some (json.Str id).
Proof.
  rewrite indexEntriesToXRefs_records. intros Hv.
  apply list_elem_of_omap in Hv as (e & He & Hr).
  apply list_elem_of_In, List.filter_In in He as [He Hnormal].
  assert (Htext : entry e <> EmptyString)
    by (apply (recordOf_is_Some (collectedTextRefs es) e); eauto).
  apply recordOf_members in Hr as (o & ty & id & -> & Hfile & Hty & Hid).
  exists o, e, ty, id. rewrite list_elem_of_In. auto 10.
Qed.

(** X23. In project mode every Record names, as its file, a document that the
    project enumerates. *)
Theorem project_records_name_enumerated_documents
    (request : JsonRpcRequest) (pResponse : JsonRpcResponse) (w : World)
    (path : string) (r : JsonRpcResponse) :
  readParams (params request) = (Success, path) ->
  isBookdownContext && isWithin (resolveAliasedPath path) buildTargetPath = true ->
  fst (xrefIndexForFile request pResponse w) = (Success, r) ->
  exists a,
    result r = Some (json.Arr a)
    /\ forall v, v ∈ a ->
         exists o d, v = json.Obj o /\ o !! "file" = Some (json.Str d)
                     /\ d ∈ projectDocuments.
Proof.
  unfold xrefIndexForFile. intros -> Hmode. simpl. rewrite Hmode, bind_run. cbn [fst].
  intros [= <-]. eexists. split; [reflexivity|]. intros v Hv.
  apply indexEntriesToXRefs_file in Hv as (e & o & He & -> & Hfile).
  exists o, (file e). split; [reflexivity|]. split; [exact Hfile|].
  rewrite (proj1 (indexEntriesForProject_run w)) in He.
  apply list_elem_of_In, in_flat_map in He as (d & Hd & He).
  apply in_map_iff in He as (x & <- & _). apply list_elem_of_In. exact Hd.
Qed.

End records_more.

Lemma every_record_has_file_type_and_id_witness :
  let es := [mkXRefIndexEntry "a.Rmd" "(k) v"; mkXRefIndexEntry "a.Rmd" "fig:plot"] in
  xrefNoTitle "a.Rmd" "fig" "plot" ∈ indexEntriesToXRefs es
  /\ exists o e ty id,
       xrefNoTitle "a.Rmd" "fig" "plot" = json.Obj o
       /\ e ∈ es /\ isNormal e = true /\ entry e <> EmptyString
       /\ o !! "file" = Some (json.Str (file e))
       /\ o !! "type" = Some (json.Str ty)
       /\ o !! "id" = Some (json.Str id).
Proof.
  intros es.
  assert (Hin : xrefNoTitle "a.Rmd" "fig" "plot" ∈ indexEntriesToXRefs es).
  { replace (indexEntriesToXRefs es) with [xrefNoTitle "a.Rmd" "fig" "plot"]
      by (vm_compute; reflexivity).
    apply list_elem_of_here. }
  split; [exact Hin|]. exact (every_record_has_file_type_and_id es _ Hin).
Defined.

Lemma project_records_name_enumerated_documents_witness :
  let request := mkRequest [json.Str "/book/ch1.Rmd"] in
  exists a,
    result (snd (fst (xrefIndexForFile request (mkResponse None) Demo.world)))
    = Some (json.Arr a)
    /\ forall v, v ∈ a ->
         exists o d, v = json.Obj o /\ o !! "file" = Some (json.Str d)
                     /\ d ∈ projectDocuments.
Proof.
  intros request.
  apply (project_records_name_enumerated_documents request (mkResponse None) Demo.world
           "/book/ch1.Rmd").
  - reflexivity.
  - vm_compute. reflexivity.
  - vm_compute. reflexivity.
Defined.
